(** * taskanov: task store, timer state, notifier and filtering

    A shallow embedding of the Python sources
    [backends/localjson.py], [backends/google.py], [ticker_notifier.py],
    [cli.py] and, of [tui.py], the filtering, the rendering of durations
    and the key handlers.

    Conventions of the embedding.
    - A Python [float] is a binary64 number: timestamps are primitive floats.
    - A method that mutates [self] and may raise is a computation
      [M S A := S -> (exn + A) * S]: the state reached when the exception is
      raised is kept, as in Python.
    - [str] is a string of 8-bit characters and [str.lower] acts on the
      ASCII letters.
    - The file system and the Google services are outside the program: a
      write consults a script of outcomes carried by the disk, and the
      Google client is an interface the backend is parameterised by. *)

From Stdlib Require Import ZArith Ascii String DecimalString Floats.PrimFloat.
From stdpp Require Import base option list strings gmap.

Local Open Scope string_scope.
Local Open Scope list_scope.

(** ** Exceptions and the state-and-exception monad *)

(** The exceptions the modelled code raises: the [ValueError] of
    [_write_time_slot], the [OSError] of a failed file write, and whatever
    the Google client library raises. All of them derive from [Exception]. *)
Inductive exn : Type :=
  | ValueError (msg : string)
  | OSError
  | RemoteError (msg : string).

Definition M (S A : Type) : Type := S -> (exn + A) * S.

Definition ret {S A} (a : A) : M S A := fun s => (inr a, s).

Definition bind {S A B} (m : M S A) (k : A -> M S B) : M S B :=
  fun s => match m s with
           | (inr a, s') => k a s'
           | (inl e, s') => (inl e, s')
           end.

Definition raise {S A} (e : exn) : M S A := fun s => (inl e, s).

(** [try: body / except Exception: handler] *)
Definition try_except {S A} (body : M S A) (handler : exn -> M S A) : M S A :=
  fun s => match body s with
           | (inr a, s') => (inr a, s')
           | (inl e, s') => handler e s'
           end.

Definition gets {S A} (f : S -> A) : M S A := fun s => (inr (f s), s).
Definition modify {S} (f : S -> S) : M S unit := fun s => (inr tt, f s).

(** Run a computation on a component of the state. *)
Definition zoom {S T A} (proj : S -> T) (put : T -> S -> S) (m : M T A) : M S A :=
  fun s => let '(r, t') := m (proj s) in (r, put t' s).

Notation "x <- m ;; k" := (bind m (fun x => k))
  (at level 100, m at next level, right associativity, only parsing).
Notation "m ;;; k" := (bind m (fun _ => k))
  (at level 100, right associativity, only parsing).

(** ** Data model *)

(** A timestamp is what [time.time()] returns, a [float].
    [float(x)] on a value that already is a float returns it. *)
Definition py_float (x : float) : float := x.

Module Task.
(** Modelled from the spec: the dataclass [Task] of [backends/base.py],
    which is not among the sources. Its fields are the ones the spec's
    data model lists and the backends construct: [id], [title], [done]
    and the optional [list_title]. *)
Record t : Type := mk {
  id : string;
  title : string;
  done : bool;
  list_title : option string;
}.
End Task.

(** The [for] loop both backends run in [ensure]: the first task of the
    cache with [t.title == title and not t.done]. *)
Definition find_open (title : string) (c : list Task.t) : option Task.t :=
  List.find (fun x => bool_decide (Task.title x = title) && negb (Task.done x)) c.

(** The triple [get_active_timer] returns, also the content of
    [timer_state.json]: [(active, title, started)]. *)
Definition snapshot : Type := bool * string * float.

(** The invariant of the spec's Timer State:
    [active == false] implies [title == ""] and [started == 0]. *)
Definition timer_invariant (s : snapshot) : Prop :=
  let '(active, title, started) := s in
  active = false -> title = "" /\ started = 0%float.

(** A point at which the timer state can be observed: the three fields of
    the backend object after one assignment (what a concurrent
    [get_active_timer] reads), or a snapshot written to [timer_state.json]. *)
Inductive Obs : Type :=
  | InMemory (s : snapshot)
  | Persisted (s : snapshot).

Definition obs_snapshot (o : Obs) : snapshot :=
  match o with InMemory s | Persisted s => s end.

Definition persisted_only (h : list Obs) : list snapshot :=
  omap (fun o => match o with Persisted s => Some s | InMemory _ => None end) h.

(** ** The local medium *)

(** The two documents next to each other on disk, and the outcome of the
    writes to come: each [write_text] consumes the head of [write_fails]
    and raises [OSError] when it is [true] (an exhausted script means the
    write succeeds). *)
Record Disk : Type := mkDisk {
  tasks_json : list Task.t;
  timer_state_json : option snapshot;
  write_fails : list bool;
}.

Definition next_write_fails (d : Disk) : bool :=
  match write_fails d with b :: _ => b | [] => false end.

Definition write_tasks_json (tasks : list Task.t) : M Disk unit :=
  fun d =>
    let d' := mkDisk (tasks_json d) (timer_state_json d) (tail (write_fails d)) in
    if next_write_fails d then (inl OSError, d')
    else (inr tt, mkDisk tasks (timer_state_json d) (tail (write_fails d))).

Definition write_timer_state_json (s : snapshot) : M Disk unit :=
  fun d =>
    let d' := mkDisk (tasks_json d) (timer_state_json d) (tail (write_fails d)) in
    if next_write_fails d then (inl OSError, d')
    else (inr tt, mkDisk (tasks_json d) (Some s) (tail (write_fails d))).

(** ** The flat local backend ([backends/localjson.py]) *)

Module LocalJsonBackend.

(** The object's attributes, the medium it writes to, the source of
    [uuid.uuid4()] values, and the history of observable points. *)
Record t : Type := mk {
  _cache : list Task.t;
  _timer_active : bool;
  _timer_title : string;
  _timer_started : float;
  disk : Disk;
  uuid4 : nat -> string;
  uuid_drawn : nat;
  history : list Obs;
}.

Definition fields (w : t) : snapshot :=
  (_timer_active w, _timer_title w, _timer_started w).

Definition with_cache (c : list Task.t) (w : t) : t :=
  mk c (_timer_active w) (_timer_title w) (_timer_started w)
     (disk w) (uuid4 w) (uuid_drawn w) (history w).
Definition with_disk (d : Disk) (w : t) : t :=
  mk (_cache w) (_timer_active w) (_timer_title w) (_timer_started w)
     d (uuid4 w) (uuid_drawn w) (history w).
Definition with_drawn (n : nat) (w : t) : t :=
  mk (_cache w) (_timer_active w) (_timer_title w) (_timer_started w)
     (disk w) (uuid4 w) n (history w).
Definition log (o : Obs) (w : t) : t :=
  mk (_cache w) (_timer_active w) (_timer_title w) (_timer_started w)
     (disk w) (uuid4 w) (uuid_drawn w) (history w ++ [o]).

(** The three attribute assignments; each one is an observable point. *)
Definition set_timer_active (b : bool) : M t unit :=
  modify (fun w =>
    log (InMemory (b, _timer_title w, _timer_started w))
        (mk (_cache w) b (_timer_title w) (_timer_started w)
            (disk w) (uuid4 w) (uuid_drawn w) (history w))).
Definition set_timer_title (s : string) : M t unit :=
  modify (fun w =>
    log (InMemory (_timer_active w, s, _timer_started w))
        (mk (_cache w) (_timer_active w) s (_timer_started w)
            (disk w) (uuid4 w) (uuid_drawn w) (history w))).
Definition set_timer_started (x : float) : M t unit :=
  modify (fun w =>
    log (InMemory (_timer_active w, _timer_title w, x))
        (mk (_cache w) (_timer_active w) (_timer_title w) x
            (disk w) (uuid4 w) (uuid_drawn w) (history w))).

Definition _write (tasks : list Task.t) : M t unit :=
  zoom disk with_disk (write_tasks_json tasks).

Definition _save : M t unit :=
  c <- gets _cache ;; _write c.

Definition _save_timer : M t unit :=
  try_except
    (s <- gets fields ;;
     zoom disk with_disk (write_timer_state_json s) ;;;
     modify (log (Persisted s)))
    (fun _ => ret tt).

Definition list_open (w : t) : list Task.t :=
  List.filter (fun x => negb (Task.done x)) (_cache w).

Definition list_done (w : t) : list Task.t :=
  List.filter (fun x => Task.done x) (_cache w).

Definition ensure (title : string) : M t Task.t :=
  c <- gets _cache ;;
  match find_open title c with
  | Some x => ret x
  | None =>
      n <- gets uuid_drawn ;;
      u <- gets uuid4 ;;
      modify (with_drawn (S n)) ;;;
      let nt := Task.mk (u n) title false None in
      modify (fun w => with_cache (_cache w ++ [nt]) w) ;;;
      _save ;;;
      ret nt
  end.

Definition get_active_timer : M t snapshot := gets fields.

Definition start_timer (title : string) (started_ts : float) : M t unit :=
  active <- gets _timer_active ;;
  cur <- gets _timer_title ;;
  (if active && negb (bool_decide (cur = title))
   then set_timer_active false ;;; _save_timer
   else ret tt) ;;;
  set_timer_active true ;;;
  set_timer_title title ;;;
  set_timer_started (py_float started_ts) ;;;
  _save_timer.

Definition stop_timer (ended_ts : float) : M t unit :=
  set_timer_active false ;;;
  set_timer_title "" ;;;
  set_timer_started 0%float ;;;
  _save_timer.

End LocalJsonBackend.

(** ** The Google services, as the remote backend calls them *)

(** An item of [tasklists().list(...)]: [l["id"]] and [l.get("title")]. *)
Record TaskList : Type := mkTaskList {
  tl_id : string;
  tl_title : option string;
}.

(** The body [_write_time_slot] sends to [events().insert]. *)
Record Event : Type := mkEvent {
  summary : string;
  description : string;
  start_dateTime : string;
  end_dateTime : string;
}.

(** The client library and the services behind it, over a state [R] of the
    remote side. Every call may raise. [_ensure_calendar] only looks a
    calendar up (creating it when absent) and is taken whole. *)
Class GoogleApi (R : Type) : Type := {
  _tasks_service : M R unit;
  tasklists_list : M R (list TaskList);
  tasklists_insert : string -> M R string;
  tasks_insert : string -> string -> M R string;
  _calendar_service : M R unit;
  _ensure_calendar : string -> M R string;
  _to_rfc3339 : float -> exn + string;
  events_insert : string -> Event -> M R unit;
}.

Definition lift_result {S A} (r : exn + A) : M S A :=
  fun s => (r, s).

Section WriteTimeSlot.
Context {R : Type} `{GoogleApi R}.

Definition _write_time_slot (start_ts end_ts : float) (summary description : string)
    (calendar_name : string) : M R unit :=
  if (end_ts <=? start_ts)%float
  then raise (ValueError "ended_ts deve essere > started_ts")
  else
    _calendar_service ;;;
    cal_id <- _ensure_calendar calendar_name ;;
    s <- lift_result (_to_rfc3339 start_ts) ;;
    e <- lift_result (_to_rfc3339 end_ts) ;;
    events_insert cal_id (mkEvent summary description s e).

End WriteTimeSlot.

(** ** The composite remote backend ([backends/google.py]) *)

Module GoogleBackend.

Record t (R : Type) : Type := mk {
  _cache : list Task.t;
  _id_index : gmap string (string * string);
  _preferred_tasklist_name : option string;
  _calendar_name : string;
  _timer_active : bool;
  _timer_title : string;
  _timer_started : float;
  disk : Disk;
  remote : R;
  history : list Obs;
}.
Arguments mk {R}.
Arguments _cache {R}.
Arguments _id_index {R}.
Arguments _preferred_tasklist_name {R}.
Arguments _calendar_name {R}.
Arguments _timer_active {R}.
Arguments _timer_title {R}.
Arguments _timer_started {R}.
Arguments disk {R}.
Arguments remote {R}.
Arguments history {R}.

Section Methods.
Context {R : Type} `{GoogleApi R}.

Definition fields (w : t R) : snapshot :=
  (_timer_active w, _timer_title w, _timer_started w).

Definition with_cache (c : list Task.t) (w : t R) : t R :=
  mk c (_id_index w) (_preferred_tasklist_name w) (_calendar_name w)
     (_timer_active w) (_timer_title w) (_timer_started w)
     (disk w) (remote w) (history w).
Definition with_id_index (i : gmap string (string * string)) (w : t R) : t R :=
  mk (_cache w) i (_preferred_tasklist_name w) (_calendar_name w)
     (_timer_active w) (_timer_title w) (_timer_started w)
     (disk w) (remote w) (history w).
Definition with_disk (d : Disk) (w : t R) : t R :=
  mk (_cache w) (_id_index w) (_preferred_tasklist_name w) (_calendar_name w)
     (_timer_active w) (_timer_title w) (_timer_started w)
     d (remote w) (history w).
Definition with_remote (r : R) (w : t R) : t R :=
  mk (_cache w) (_id_index w) (_preferred_tasklist_name w) (_calendar_name w)
     (_timer_active w) (_timer_title w) (_timer_started w)
     (disk w) r (history w).
Definition log (o : Obs) (w : t R) : t R :=
  mk (_cache w) (_id_index w) (_preferred_tasklist_name w) (_calendar_name w)
     (_timer_active w) (_timer_title w) (_timer_started w)
     (disk w) (remote w) (history w ++ [o]).

Definition set_timer_active (b : bool) : M (t R) unit :=
  modify (fun w =>
    log (InMemory (b, _timer_title w, _timer_started w))
        (mk (_cache w) (_id_index w) (_preferred_tasklist_name w) (_calendar_name w)
            b (_timer_title w) (_timer_started w)
            (disk w) (remote w) (history w))).
Definition set_timer_title (s : string) : M (t R) unit :=
  modify (fun w =>
    log (InMemory (_timer_active w, s, _timer_started w))
        (mk (_cache w) (_id_index w) (_preferred_tasklist_name w) (_calendar_name w)
            (_timer_active w) s (_timer_started w)
            (disk w) (remote w) (history w))).
Definition set_timer_started (x : float) : M (t R) unit :=
  modify (fun w =>
    log (InMemory (_timer_active w, _timer_title w, x))
        (mk (_cache w) (_id_index w) (_preferred_tasklist_name w) (_calendar_name w)
            (_timer_active w) (_timer_title w) x
            (disk w) (remote w) (history w))).

(** A call to the Google client acts on the remote side only. *)
Definition call {A} (m : M R A) : M (t R) A := zoom remote with_remote m.

Definition _save_timer : M (t R) unit :=
  try_except
    (s <- gets fields ;;
     zoom disk with_disk (write_timer_state_json s) ;;;
     modify (log (Persisted s)))
    (fun _ => ret tt).

Definition _default_list_id : M (t R) string :=
  call _tasks_service ;;;
  lists <- call tasklists_list ;;
  preferred <- gets _preferred_tasklist_name ;;
  let by_name :=
    match preferred with
    | Some name =>
        if bool_decide (name = "") then None
        else List.find (fun l => bool_decide (tl_title l = Some name)) lists
    | None => None
    end in
  match by_name with
  | Some l => ret (tl_id l)
  | None =>
      match lists with
      | [] => call (tasklists_insert "My Tasks")
      | l0 :: _ => ret (tl_id l0)
      end
  end.

Definition list_open (w : t R) : list Task.t :=
  List.filter (fun x => negb (Task.done x)) (_cache w).

Definition list_done (w : t R) : list Task.t :=
  List.filter (fun x => Task.done x) (_cache w).

Definition ensure (title : string) : M (t R) Task.t :=
  c <- gets _cache ;;
  match find_open title c with
  | Some x => ret x
  | None =>
      list_id <- _default_list_id ;;
      call _tasks_service ;;;
      created_id <- call (tasks_insert list_id title) ;;
      let gid := (list_id ++ "::" ++ created_id)%string in
      let nt := Task.mk gid title false None in
      modify (fun w => with_cache (_cache w ++ [nt]) w) ;;;
      modify (fun w => with_id_index (<[gid := (list_id, created_id)]> (_id_index w)) w) ;;;
      ret nt
  end.

Definition get_active_timer : M (t R) snapshot := gets fields.

Definition start_timer (title : string) (started_ts : float) : M (t R) unit :=
  active <- gets _timer_active ;;
  cur <- gets _timer_title ;;
  (if active && negb (bool_decide (cur = title))
   then set_timer_active false ;;; _save_timer
   else ret tt) ;;;
  set_timer_active true ;;;
  set_timer_title title ;;;
  set_timer_started (py_float started_ts) ;;;
  _save_timer.

Definition stop_timer (ended_ts : float) : M (t R) unit :=
  active <- gets _timer_active ;;
  started <- gets _timer_started ;;
  (if active && (0 <? started)%float
   then
     try_except
       (cur <- gets _timer_title ;;
        cal <- gets _calendar_name ;;
        call (_write_time_slot started (py_float ended_ts)
                (if bool_decide (cur = "") then "taskanov: work" else cur)
                "Logged via taskanov" cal))
       (fun _ => ret tt)
   else ret tt) ;;;
  set_timer_active false ;;;
  set_timer_title "" ;;;
  set_timer_started 0%float ;;;
  _save_timer.

End Methods.
End GoogleBackend.

(** ** The backend contract *)

(** Modelled from the spec: the protocol [Backend] of [backends/base.py],
    which is not among the sources; these are the operations of the spec's
    store contract that the notifier and the controller call. *)
Class Backend (B : Type) : Type := {
  list_open : B -> list Task.t;
  list_done : B -> list Task.t;
  ensure : string -> M B Task.t;
  get_active_timer : M B snapshot;
  start_timer : string -> float -> M B unit;
  stop_timer : float -> M B unit;
}.

#[export] Instance LocalJsonBackend_Backend : Backend LocalJsonBackend.t := {|
  list_open := LocalJsonBackend.list_open;
  list_done := LocalJsonBackend.list_done;
  ensure := LocalJsonBackend.ensure;
  get_active_timer := LocalJsonBackend.get_active_timer;
  start_timer := LocalJsonBackend.start_timer;
  stop_timer := LocalJsonBackend.stop_timer;
|}.

#[export] Instance GoogleBackend_Backend {R : Type} `{GoogleApi R} :
  Backend (GoogleBackend.t R) := {|
  list_open := GoogleBackend.list_open;
  list_done := GoogleBackend.list_done;
  ensure := GoogleBackend.ensure;
  get_active_timer := GoogleBackend.get_active_timer;
  start_timer := GoogleBackend.start_timer;
  stop_timer := GoogleBackend.stop_timer;
|}.

(** ** The notification scheduler ([ticker_notifier.py], [cli.py]) *)

(** A Python number: [interval] is [1.0] by default and [60*5] in [main]. *)
Inductive pynum : Type :=
  | PyInt (n : Z)
  | PyFloat (x : float).

(** A request handed to [notify(title=..., message=...)]. [notify] wraps its
    whole body in [try/except Exception] and returns a boolean that [_run]
    discards: at this boundary it records the request and returns. *)
Record Notification : Type := mkNotification {
  n_title : string;
  n_message : string;
}.

Module TickerNotifier.

(** The attributes of the object other than [backend], which is a
    reference to the store shared with the controller (see [World]). *)
Record t : Type := mk {
  interval : pynum;
  _stop : bool;
  _thr_alive : bool;
  _tick : Z;
}.

(** [__init__(self, backend, interval=1.0)] *)
Definition __init__ (interval : option pynum) : t :=
  mk (default (PyFloat 1%float) interval) false false 0.

(** The notifier, the store [self.backend] refers to, and the requests
    sent to the operating system so far. *)
Record World (B : Type) : Type := mkWorld {
  self : t;
  store : B;
  outbox : list Notification;
}.
Arguments mkWorld {B}.
Arguments self {B}.
Arguments store {B}.
Arguments outbox {B}.

Section Run.
Context {B : Type} `{Backend B}.

Definition with_store (b : B) (w : World B) : World B :=
  mkWorld (self w) b (outbox w).

Definition notify (title message : string) : M (World B) unit :=
  modify (fun w => mkWorld (self w) (store w) (outbox w ++ [mkNotification title message])).

(** The body of the [while] loop of [_run]: one tick. *)
Definition _run_body : M (World B) unit :=
  modify (fun w =>
    mkWorld (mk (interval (self w)) (_stop (self w)) (_thr_alive (self w))
                (_tick (self w) + 1))
            (store w) (outbox w)) ;;;
  actives <- zoom store with_store get_active_timer ;;
  if negb (actives.1.1)
  then notify "taskanov" "What are you working on? Open Taskanov"
  else notify "taskanov" ("Are you still working on " ++ actives.1.2 ++ "?")%string.

(** [while not self._stop.wait(self.interval): body]. The outcomes of the
    successive waits are given: [false] when the period elapsed, [true]
    when the stop event was set. *)
Fixpoint _run (waits : list bool) : M (World B) unit :=
  match waits with
  | false :: rest => _run_body ;;; _run rest
  | _ => ret tt
  end.

End Run.
End TickerNotifier.

(** [bg = TickerNotifier(backend, interval=60*5)] in [main]. *)
Definition main_notifier : TickerNotifier.t :=
  TickerNotifier.__init__ (Some (PyInt (60 * 5))).

(** ** Filtering in the controller ([tui.py]) *)

(** [str.lower] on ASCII letters. *)
Definition lower_ascii (c : ascii) : ascii :=
  let n := nat_of_ascii c in
  if (65 <=? n)%nat && (n <=? 90)%nat then ascii_of_nat (n + 32) else c.

Fixpoint lower (s : string) : string :=
  match s with
  | EmptyString => EmptyString
  | String c s' => String (lower_ascii c) (lower s')
  end.

(** [needle in hay] on strings. *)
Fixpoint str_in (needle hay : string) : bool :=
  String.prefix needle hay ||
  match hay with
  | EmptyString => false
  | String _ hay' => str_in needle hay'
  end.

Module TaskTUI.

Record t (B : Type) : Type := mk {
  backend : B;
  focus_done : bool;
  idx_open : Z;
  idx_done : Z;
  filter_text : string;
}.
Arguments mk {B}.
Arguments backend {B}.
Arguments focus_done {B}.
Arguments idx_open {B}.
Arguments idx_done {B}.
Arguments filter_text {B}.

Section Filtering.
Context {B : Type} `{Backend B}.

Definition _filtered_open (ui : t B) : list Task.t :=
  let items := list_open (backend ui) in
  if bool_decide (filter_text ui = "") then items
  else
    let ft := lower (filter_text ui) in
    List.filter
      (fun x =>
         str_in ft (lower (Task.title x)) ||
         match Task.list_title x with
         | Some l => negb (bool_decide (l = "")) && str_in ft (lower l)
         | None => false
         end)
      items.

Definition _filtered_done (ui : t B) : list Task.t :=
  let items := list_done (backend ui) in
  if bool_decide (filter_text ui = "") then items
  else
    let ft := lower (filter_text ui) in
    List.filter (fun x => str_in ft (lower (Task.title x))) items.

End Filtering.
End TaskTUI.

(** ** The relation the filter is specified by *)

(** The spec's wording, "contains [filter_text] as a case-insensitive
    substring", stated without lower-casing: two characters are the same
    up to case when they are equal or are the same letter of the alphabet,
    and [needle] occurs in [hay] when some run of consecutive characters of
    [hay] matches it character by character up to case. *)
Definition is_ascii_letter (c : ascii) : bool :=
  let n := nat_of_ascii c in
  ((65 <=? n)%nat && (n <=? 90)%nat) || ((97 <=? n)%nat && (n <=? 122)%nat).

Definition same_char_ignoring_case (c d : ascii) : bool :=
  Ascii.eqb c d ||
  (is_ascii_letter c && is_ascii_letter d &&
   (nat_of_ascii c mod 32 =? nat_of_ascii d mod 32)%nat).

Inductive eq_ignoring_case : string -> string -> Prop :=
  | eic_empty : eq_ignoring_case EmptyString EmptyString
  | eic_char c d s u :
      same_char_ignoring_case c d = true ->
      eq_ignoring_case s u ->
      eq_ignoring_case (String c s) (String d u).

Definition ci_substring (needle hay : string) : Prop :=
  exists pre mid post, hay = pre +:+ mid +:+ post /\ eq_ignoring_case mid needle.

(** Checking a property of characters on all 256 of them. *)
Definition all_bool (f : bool -> bool) : bool := f true && f false.

Definition all_ascii (f : ascii -> bool) : bool :=
  all_bool (fun b0 => all_bool (fun b1 => all_bool (fun b2 => all_bool (fun b3 =>
  all_bool (fun b4 => all_bool (fun b5 => all_bool (fun b6 => all_bool (fun b7 =>
    f (Ascii b0 b1 b2 b3 b4 b5 b6 b7))))))))).

(** ** What a tick sends and leaves behind *)

Definition tick_message (s : snapshot) : string :=
  if s.1.1 then ("Are you still working on " ++ s.1.2 ++ "?")%string
  else "What are you working on? Open Taskanov".

Definition ticked (n : TickerNotifier.t) : TickerNotifier.t :=
  TickerNotifier.mk (TickerNotifier.interval n) (TickerNotifier._stop n)
    (TickerNotifier._thr_alive n) (TickerNotifier._tick n + 1).

(** ** A stand-in for the Google services

    Used to run the remote backend on concrete inputs: every call raises
    when the services are unreachable, and otherwise answers from the
    lists, identifiers and events it holds. Timestamps are not rendered. *)
Record FakeGoogle : Type := mkFake {
  fg_online : bool;
  fg_lists : list TaskList;
  fg_ids : list string;
  fg_events : list (string * Event);
}.

Definition fg_call {A} (answer : FakeGoogle -> A * FakeGoogle) : M FakeGoogle A :=
  fun g => if fg_online g
           then let '(a, g') := answer g in (inr a, g')
           else (inl (RemoteError "unreachable"), g).

#[export] Instance FakeGoogle_Api : GoogleApi FakeGoogle := {|
  _tasks_service := fg_call (fun g => (tt, g));
  tasklists_list := fg_call (fun g => (fg_lists g, g));
  tasklists_insert := fun name =>
    fg_call (fun g => (name, mkFake true (fg_lists g ++ [mkTaskList name (Some name)])
                                    (fg_ids g) (fg_events g)));
  tasks_insert := fun _ _ =>
    fg_call (fun g => (hd "t0" (fg_ids g),
                       mkFake true (fg_lists g) (tail (fg_ids g)) (fg_events g)));
  _calendar_service := fg_call (fun g => (tt, g));
  _ensure_calendar := fun name => fg_call (fun g => (name, g));
  _to_rfc3339 := fun _ => inr "";
  events_insert := fun cal ev =>
    fg_call (fun g => (tt, mkFake true (fg_lists g) (fg_ids g) (fg_events g ++ [(cal, ev)])));
|}.

Definition fake_online : FakeGoogle := mkFake true [mkTaskList "L1" (Some "Inbox")] ["t1"; "t2"] [].
Definition fake_offline : FakeGoogle := mkFake false [] [] [].

Definition local_idle : LocalJsonBackend.t :=
  LocalJsonBackend.mk [] false "" 0%float (mkDisk [] None []) (fun _ => "u") 0 [].

Definition local_running_A : LocalJsonBackend.t :=
  LocalJsonBackend.mk [] true "A" 100%float (mkDisk [] None []) (fun _ => "u") 0 [].

Definition google_idle (g : FakeGoogle) : GoogleBackend.t FakeGoogle :=
  GoogleBackend.mk [] ∅ None "taskanov" false "" 0%float (mkDisk [] None []) g [].

Definition google_running_A (g : FakeGoogle) : GoogleBackend.t FakeGoogle :=
  GoogleBackend.mk [] ∅ None "taskanov" true "A" 100%float (mkDisk [] None []) g [].

(** ** The other task operations of the local backend *)

Module LocalJsonTasks.
Import LocalJsonBackend.

(** [t.done = not t.done] on a task object. *)
Definition flipped (x : Task.t) : Task.t :=
  Task.mk (Task.id x) (Task.title x) (negb (Task.done x)) (Task.list_title x).

(** The [for] loop of [toggle]: the first task with this id is flipped in
    place, inside the list, and is the object handed back. *)
Fixpoint toggle_loop (task_id : string) (c : list Task.t) : option (Task.t * list Task.t) :=
  match c with
  | [] => None
  | x :: rest =>
      if bool_decide (Task.id x = task_id)
      then Some (flipped x, flipped x :: rest)
      else match toggle_loop task_id rest with
           | Some (y, rest') => Some (y, x :: rest')
           | None => None
           end
  end.

Definition toggle (task_id : string) : M t (option Task.t) :=
  c <- gets _cache ;;
  match toggle_loop task_id c with
  | Some (y, c') =>
      modify (with_cache c') ;;;
      _save ;;;
      ret (Some y)
  | None => ret None
  end.

(** One iteration of the [for] loop of [delete], on the pair
    [(removed, new_list)]. *)
Definition delete_step (task_id : string) (acc : option Task.t * list Task.t)
    (x : Task.t) : option Task.t * list Task.t :=
  let '(removed, new_list) := acc in
  if bool_decide (Task.id x = task_id) && bool_decide (removed = None)
  then (Some x, new_list)
  else (removed, new_list ++ [x]).

Definition delete_loop (task_id : string) (c : list Task.t) : option Task.t * list Task.t :=
  fold_left (delete_step task_id) c (None, []).

Definition delete (task_id : string) : M t (option Task.t) :=
  c <- gets _cache ;;
  let '(removed, new_list) := delete_loop task_id c in
  modify (with_cache new_list) ;;;
  _save ;;;
  ret removed.

(** [_read] on a document that [_write] produced: its records, in order. *)
Definition _read : M t (list Task.t) := gets (fun w => tasks_json (disk w)).

Definition refresh : M t unit :=
  c <- _read ;; modify (with_cache c).

End LocalJsonTasks.

(** ** Vocabulary of the statements about the local store *)

(** Whether the [n]-th write from now raises. *)
Definition write_outcome (n : nat) (d : Disk) : bool := nth n (write_fails d) false.

(** The task document holds what the cache holds. *)
Definition in_sync (w : LocalJsonBackend.t) : Prop :=
  tasks_json (LocalJsonBackend.disk w) = LocalJsonBackend._cache w.

(** The calls a client can make on the local backend. *)
Inductive local_call : Type :=
  | CallRefresh
  | CallToggle (task_id : string)
  | CallDelete (task_id : string)
  | CallEnsure (title : string)
  | CallStartTimer (title : string) (started_ts : float)
  | CallStopTimer (ended_ts : float).

Definition discard {S A} (m : M S A) : M S unit := bind m (fun _ => ret tt).

Definition run_call (c : local_call) : M LocalJsonBackend.t unit :=
  match c with
  | CallRefresh => LocalJsonTasks.refresh
  | CallToggle task_id => discard (LocalJsonTasks.toggle task_id)
  | CallDelete task_id => discard (LocalJsonTasks.delete task_id)
  | CallEnsure title => discard (LocalJsonBackend.ensure title)
  | CallStartTimer title ts => LocalJsonBackend.start_timer title ts
  | CallStopTimer ts => LocalJsonBackend.stop_timer ts
  end.

(** Calls made one after the other, up to the first that raises. *)
Fixpoint run_calls (cs : list local_call) : M LocalJsonBackend.t unit :=
  match cs with
  | [] => ret tt
  | c :: rest => bind (run_call c) (fun _ => run_calls rest)
  end.

(** ** Composite ids of the remote backend *)

Fixpoint drop_chars (n : nat) (s : string) : string :=
  match n, s with
  | S n', String _ s' => drop_chars n' s'
  | _, _ => s
  end.

(** [s.split(sep, 1)] when [sep] occurs in [s]: the text before its first
    occurrence and the text after it; [None] when [sep] does not occur
    (the list [split] returns then has [s] as its only item). *)
Fixpoint split_once (sep s : string) : option (string * string) :=
  if String.prefix sep s
  then Some (EmptyString, drop_chars (String.length sep) s)
  else match s with
       | EmptyString => None
       | String c s' =>
           match split_once sep s' with
           | Some (before, after) => Some (String c before, after)
           | None => None
           end
       end.

(** [list_id, task_id = gid.split("::", 1)]: unpacking a one-item list
    raises [ValueError]. *)
Definition _split_gid (gid : string) : exn + (string * string) :=
  match split_once "::" gid with
  | Some (list_id, task_id) => inr (list_id, task_id)
  | None => inl (ValueError "not enough values to unpack (expected 2, got 1)")
  end.

(** ** The other task operations of the remote backend *)

(** The body [toggle] sends to [tasks().patch]. *)
Record PatchBody : Type := mkPatch {
  pb_status : string;
  pb_completed : option string;
}.

(** The calls [toggle] and [delete] make besides those of [GoogleApi]:
    [tasks().get(...)] read at ["status"], the local clock rendered by
    [isoformat()], [tasks().patch(...)] read at ["status"], and
    [tasks().delete(...)]. *)
Class GoogleTasksApi (R : Type) : Type := {
  tasks_get : string -> string -> M R (option string);
  now_isoformat : M R string;
  tasks_patch : string -> string -> PatchBody -> M R (option string);
  tasks_delete : string -> string -> M R unit;
}.

Module GoogleTasks.
Import GoogleBackend.

Section Methods.
Context {R : Type} `{GoogleApi R} `{GoogleTasksApi R}.

(** The body chosen from the status the server reports. *)
Definition patch_body (cur : option string) (now_iso : string) : PatchBody :=
  if bool_decide (cur = Some "completed")
  then mkPatch "needsAction" None
  else mkPatch "completed" (Some now_iso).

Definition with_done (d : bool) (x : Task.t) : Task.t :=
  Task.mk (Task.id x) (Task.title x) d (Task.list_title x).

(** The final [for] loop of [toggle]: the first task with this id gets
    [done] from the server's answer and is handed back. *)
Fixpoint set_done_loop (task_id : string) (d : bool) (c : list Task.t)
    : option (Task.t * list Task.t) :=
  match c with
  | [] => None
  | x :: rest =>
      if bool_decide (Task.id x = task_id)
      then Some (with_done d x, with_done d x :: rest)
      else match set_done_loop task_id d rest with
           | Some (y, rest') => Some (y, x :: rest')
           | None => None
           end
  end.

Definition toggle (task_id : string) : M (t R) (option Task.t) :=
  ix <- gets _id_index ;;
  match ix !! task_id with
  | None => ret None
  | Some (list_id, tid) =>
      call _tasks_service ;;;
      cur <- call (tasks_get list_id tid) ;;
      now_iso <- call now_isoformat ;;
      updated <- call (tasks_patch list_id tid (patch_body cur now_iso)) ;;
      c <- gets _cache ;;
      match set_done_loop task_id (bool_decide (updated = Some "completed")) c with
      | Some (y, c') => modify (with_cache c') ;;; ret (Some y)
      | None => ret None
      end
  end.

(** [delete] runs the same loop as the local backend, after the remote
    call, and then drops the id from the index. *)
Definition delete (task_id : string) : M (t R) (option Task.t) :=
  ix <- gets _id_index ;;
  match ix !! task_id with
  | None => ret None
  | Some (list_id, tid) =>
      call _tasks_service ;;;
      call (tasks_delete list_id tid) ;;;
      c <- gets _cache ;;
      let '(removed, new_list) := LocalJsonTasks.delete_loop task_id c in
      modify (with_cache new_list) ;;;
      modify (fun w => with_id_index (base.delete task_id (_id_index w)) w) ;;;
      ret removed
  end.

End Methods.
End GoogleTasks.

(** The stand-in answers the calls of [toggle] and [delete] too: a task
    reports no status, and a patch is applied as sent. *)
#[export] Instance FakeGoogle_TasksApi : GoogleTasksApi FakeGoogle := {|
  tasks_get := fun _ _ => fg_call (fun g => (None, g));
  now_isoformat := fun g => (inr "2026-01-01T00:00:00+01:00", g);
  tasks_patch := fun _ _ body => fg_call (fun g => (Some (pb_status body), g));
  tasks_delete := fun _ _ => fg_call (fun g => (tt, g));
|}.

(** ** Vocabulary of the statements about recording *)

(** The summary [stop_timer] records: [self._timer_title or "taskanov: work"]. *)
Definition slot_summary (title : string) : string :=
  if bool_decide (title = "") then "taskanov: work" else title.

(** ** Vocabulary of the statements about the loop of the notifier *)

(** The number of waits that elapsed before the stop event was seen. *)
Fixpoint elapsed_periods (waits : list bool) : nat :=
  match waits with
  | false :: rest => S (elapsed_periods rest)
  | _ => 0
  end.

Definition ticked_by (n : nat) (t : TickerNotifier.t) : TickerNotifier.t :=
  TickerNotifier.mk (TickerNotifier.interval t) (TickerNotifier._stop t)
    (TickerNotifier._thr_alive t) (TickerNotifier._tick t + Z.of_nat n).

(** ** Rendering a duration ([_fmt_dur] of [tui.py]) *)

(** [str(n)] for an integer. *)
Definition py_str_int (n : Z) : string := NilZero.string_of_int (Z.to_int n).

(** [f"{n:02d}"]: the decimal digits, with a zero in front when that
    gives fewer than two characters. *)
Definition format_02d (n : Z) : string :=
  let s := py_str_int n in
  if (String.length s <? 2)%nat then "0" +:+ s else s.

Definition _fmt_dur (seconds : Z) : string :=
  let seconds := Z.max 0 seconds in
  let h := (seconds / 3600)%Z in
  let m := ((seconds mod 3600) / 60)%Z in
  let s := (seconds mod 60)%Z in
  format_02d h +:+ ":" +:+ format_02d m +:+ ":" +:+ format_02d s.

(** The two characters that write a number below 100 as tens and units. *)
Definition digit_char (d : Z) : ascii := ascii_of_nat (48 + Z.to_nat d).

Definition two_digits (x : Z) : string :=
  String (digit_char (x / 10)) (String (digit_char (x mod 10)) EmptyString).

(** ** The key handlers of the controller ([tui.py]) *)

Module Contract.
(** Modelled from the spec: the part of the protocol [Backend] of
    [backends/base.py] (not among the sources) that the key handlers call
    besides the operations of the class [Backend] above. *)
Class Tasks (B : Type) : Type := {
  toggle : string -> M B (option Task.t);
  delete : string -> M B (option Task.t);
  refresh : M B unit;
}.
End Contract.

#[export] Instance LocalJsonBackend_Tasks : Contract.Tasks LocalJsonBackend.t := {|
  Contract.toggle := LocalJsonTasks.toggle;
  Contract.delete := LocalJsonTasks.delete;
  Contract.refresh := LocalJsonTasks.refresh;
|}.

(** What a key handler can raise: the [IndexError] of [items[idx]], or
    whatever the backend raised. *)
Inductive ui_exn : Type :=
  | IndexError
  | BackendRaised (e : exn).

(** [l[i]] on a Python list: a negative index counts from the end, an
    index outside the list raises [IndexError] ([None] here). *)
Definition py_index {A} (l : list A) (i : Z) : option A :=
  if (0 <=? i)%Z then l !! Z.to_nat i
  else if (- Z.of_nat (length l) <=? i)%Z then l !! Z.to_nat (Z.of_nat (length l) + i)
  else None.

(** [str.strip()] on ASCII white space. *)
Definition is_space (c : ascii) : bool :=
  let n := nat_of_ascii c in
  ((9 <=? n)%nat && (n <=? 13)%nat) || ((28 <=? n)%nat && (n <=? 32)%nat).

Fixpoint lstrip (s : string) : string :=
  match s with
  | EmptyString => EmptyString
  | String c s' => if is_space c then lstrip s' else s
  end.

Fixpoint rstrip (s : string) : string :=
  match s with
  | EmptyString => EmptyString
  | String c s' =>
      match rstrip s' with
      | EmptyString => if is_space c then EmptyString else String c EmptyString
      | r => String c r
      end
  end.

Definition strip (s : string) : string := rstrip (lstrip s).

Module TaskTUIKeys.
Import TaskTUI.

Definition UI (B A : Type) : Type := t B -> (ui_exn + A) * t B.

Definition with_backend {B} (b : B) (ui : t B) : t B :=
  mk b (focus_done ui) (idx_open ui) (idx_done ui) (filter_text ui).
Definition with_focus_done {B} (f : bool) (ui : t B) : t B :=
  mk (backend ui) f (idx_open ui) (idx_done ui) (filter_text ui).
Definition with_idx_open {B} (i : Z) (ui : t B) : t B :=
  mk (backend ui) (focus_done ui) i (idx_done ui) (filter_text ui).
Definition with_idx_done {B} (i : Z) (ui : t B) : t B :=
  mk (backend ui) (focus_done ui) (idx_open ui) i (filter_text ui).
Definition with_filter_text {B} (s : string) (ui : t B) : t B :=
  mk (backend ui) (focus_done ui) (idx_open ui) (idx_done ui) s.

(** A call on [self.backend]; what it raises reaches the handler. *)
Definition on_backend {B A} (m : M B A) : UI B A :=
  fun ui =>
    let '(r, b') := m (backend ui) in
    (match r with inl e => inl (BackendRaised e) | inr a => inr a end,
     with_backend b' ui).

Section Handlers.
Context {B : Type} `{Backend B}.

Definition _move (delta : Z) (ui : t B) : t B :=
  if focus_done ui then
    let n := Z.of_nat (length (_filtered_done ui)) in
    if (n =? 0)%Z then ui
    else with_idx_done (Z.max 0 (Z.min (idx_done ui + delta) (n - 1))) ui
  else
    let n := Z.of_nat (length (_filtered_open ui)) in
    if (n =? 0)%Z then ui
    else with_idx_open (Z.max 0 (Z.min (idx_open ui + delta) (n - 1))) ui.

Definition _current_task (ui : t B) : ui_exn + (string * option Task.t) :=
  if focus_done ui then
    match _filtered_done ui with
    | [] => inr ("done", None)
    | items =>
        match py_index items (idx_done ui) with
        | Some x => inr ("done", Some x)
        | None => inl IndexError
        end
    end
  else
    match _filtered_open ui with
    | [] => inr ("open", None)
    | items =>
        match py_index items (idx_open ui) with
        | Some x => inr ("open", Some x)
        | None => inl IndexError
        end
    end.

(** "tab" *)
Definition key_tab (ui : t B) : t B := with_focus_done (negb (focus_done ui)) ui.

(** "x", with [now] the value of [time.time()] *)
Definition key_x (now : float) : UI B unit :=
  fun ui =>
    match on_backend get_active_timer ui with
    | (inl e, ui') => (inl e, ui')
    | (inr actives, ui') =>
        if actives.1.1 then on_backend (stop_timer now) ui' else (inr tt, ui')
    end.

(** The body of the [try] of "s". *)
Definition switch_timer (title : string) (now : float) : M B unit :=
  actives <- get_active_timer ;;
  (if actives.1.1 && negb (bool_decide (actives.1.2 = title))
   then stop_timer now else ret tt) ;;;
  (if negb actives.1.1 || negb (bool_decide (actives.1.2 = title))
   then start_timer title now else ret tt).

(** "s": [_current_task()] is outside the [try], the backend calls are
    inside [try/except Exception: pass]. *)
Definition key_s (now : float) : UI B unit :=
  fun ui =>
    match _current_task ui with
    | inl e => (inl e, ui)
    | inr (_, None) => (inr tt, ui)
    | inr (_, Some x) =>
        on_backend (try_except (switch_timer (Task.title x) now) (fun _ => ret tt)) ui
    end.

(** [_on_search_change], with [text] the content of the search box. *)
Definition _on_search_change (text : string) (ui : t B) : t B :=
  with_idx_done 0 (with_idx_open 0 (with_filter_text (strip text) ui)).

Context `{Contract.Tasks B}.

(** " " *)
Definition key_space : UI B unit :=
  fun ui =>
    match _current_task ui with
    | inl e => (inl e, ui)
    | inr (_, None) => (inr tt, ui)
    | inr (_, Some x) =>
        match on_backend (Contract.toggle (Task.id x)) ui with
        | (inl e, ui') => (inl e, ui')
        | (inr _, ui') => (inr tt, ui')
        end
    end.

(** "d" *)
Definition key_d : UI B unit :=
  fun ui =>
    match _current_task ui with
    | inl e => (inl e, ui)
    | inr (_, None) => (inr tt, ui)
    | inr (_, Some x) =>
        match on_backend (Contract.delete (Task.id x)) ui with
        | (inl e, ui') => (inl e, ui')
        | (inr _, ui') =>
            (inr tt,
             if focus_done ui'
             then with_idx_done (Z.max 0 (idx_done ui' - 1)) ui'
             else with_idx_open (Z.max 0 (idx_open ui' - 1)) ui')
        end
    end.

(** "r" *)
Definition key_r : UI B unit := on_backend Contract.refresh.

(** The inputs the handlers above answer to. *)
Inductive event : Type :=
  | KeyUp
  | KeyDown
  | KeySpace
  | KeyD
  | KeyTab
  | KeyR
  | KeyX (now : float)
  | KeyS (now : float)
  | SearchChanged (text : string).

Definition handle (ev : event) : UI B unit :=
  match ev with
  | KeyUp => fun ui => (inr tt, _move (-1) ui)
  | KeyDown => fun ui => (inr tt, _move 1 ui)
  | KeySpace => key_space
  | KeyD => key_d
  | KeyTab => fun ui => (inr tt, key_tab ui)
  | KeyR => key_r
  | KeyX now => key_x now
  | KeyS now => key_s now
  | SearchChanged text => fun ui => (inr tt, _on_search_change text ui)
  end.

End Handlers.
End TaskTUIKeys.

(** ** Vocabulary of the statements about the selection *)

Definition selection_nonneg {B} (ui : TaskTUI.t B) : Prop :=
  (0 <= TaskTUI.idx_open ui)%Z /\ (0 <= TaskTUI.idx_done ui)%Z.

(** The view and the index of the pane that has the focus. *)
Definition focused_view {B} `{Backend B} (ui : TaskTUI.t B) : list Task.t :=
  if TaskTUI.focus_done ui then TaskTUI._filtered_done ui else TaskTUI._filtered_open ui.

Definition focused_idx {B} (ui : TaskTUI.t B) : Z :=
  if TaskTUI.focus_done ui then TaskTUI.idx_done ui else TaskTUI.idx_open ui.

(** ** Auxiliary definitions of the proofs *)

(** A task carries the id. *)
Definition has_id (task_id : string) (x : Task.t) : Prop := Task.id x = task_id.

(** The disk after one write attempt of the task document. *)
Definition after_write (tasks : list Task.t) (d : Disk) : Disk :=
  mkDisk (if next_write_fails d then tasks_json d else tasks)
         (timer_state_json d) (tail (write_fails d)).

Definition write_result {A} (d : Disk) (a : A) : exn + A :=
  if next_write_fails d then inl OSError else inr a.

(** Setting the index of the pane that has the focus. *)
Definition set_focused_idx {B} (i : Z) (ui : TaskTUI.t B) : TaskTUI.t B :=
  if TaskTUI.focus_done ui then TaskTUIKeys.with_idx_done i ui
  else TaskTUIKeys.with_idx_open i ui.

(** The focused view of the local store as a function of its cache. *)
Definition shown (fd : bool) (ft : string) (x : Task.t) : bool :=
  (if fd then Task.done x else negb (Task.done x)) &&
  (bool_decide (ft = "") ||
   if fd then str_in (lower ft) (lower (Task.title x))
   else str_in (lower ft) (lower (Task.title x)) ||
        match Task.list_title x with
        | Some l => negb (bool_decide (l = "")) && str_in (lower ft) (lower l)
        | None => false
        end).

(** The state "d" leaves once the backend has returned [b']. *)
Definition after_delete (b' : LocalJsonBackend.t) (ui : TaskTUI.t LocalJsonBackend.t)
    : TaskTUI.t LocalJsonBackend.t :=
  if TaskTUI.focus_done (TaskTUIKeys.with_backend b' ui)
  then TaskTUIKeys.with_idx_done
         (Z.max 0 (TaskTUI.idx_done (TaskTUIKeys.with_backend b' ui) - 1))
         (TaskTUIKeys.with_backend b' ui)
  else TaskTUIKeys.with_idx_open
         (Z.max 0 (TaskTUI.idx_open (TaskTUIKeys.with_backend b' ui) - 1))
         (TaskTUIKeys.with_backend b' ui).

(** * Properties *)

(** ** Stepping through the monad *)

Ltac unfold_monad :=
  unfold bind, ret, raise, gets, modify, zoom, try_except, lift_result in *.

Module LocalFacts.
Import LocalJsonBackend.

(** What [_save_timer] does: it never raises; a failed write leaves the
    document alone, a successful one replaces it by the current fields. *)
Lemma local_save_timer_run (w : t) :
  _save_timer w =
  (inr tt,
   if next_write_fails (disk w)
   then with_disk (mkDisk (tasks_json (disk w)) (timer_state_json (disk w))
                          (tail (write_fails (disk w)))) w
   else log (Persisted (fields w))
            (with_disk (mkDisk (tasks_json (disk w)) (Some (fields w))
                               (tail (write_fails (disk w)))) w)).
Proof.
  unfold _save_timer, write_timer_state_json. unfold_monad.
  destruct (next_write_fails (disk w)); reflexivity.
Qed.

End LocalFacts.

Module LocalTimerFacts.
Import LocalJsonBackend LocalFacts.

Ltac local_save :=
  rewrite local_save_timer_run; cbn;
  match goal with
  | |- context [next_write_fails ?d] => destruct (next_write_fails d)
  end; cbn.

(** [start_timer] returns, with the timer attached to the new title. *)
Lemma local_start_timer_returns (w : t) (title : string) (ts : float) :
  exists w', start_timer title ts w = (inr tt, w') /\
             fields w' = (true, title, ts) /\ _cache w' = _cache w.
Proof.
  destruct w as [c a ti st d u n h].
  unfold start_timer. unfold_monad. cbn.
  destruct (a && negb (bool_decide (ti = title))); cbn.
  - local_save; local_save; eexists; repeat split; reflexivity.
  - local_save; eexists; repeat split; reflexivity.
Qed.

(** Restarting the timer of the title that is already active: no
    observable point shows an inactive timer and at most the final
    snapshot is persisted. *)
Lemma local_start_timer_same_title (w : t) (T : string) (t1 t2 : float) :
  fields w = (true, T, t1) ->
  exists w' new,
    start_timer T t2 w = (inr tt, w') /\
    fields w' = (true, T, t2) /\
    history w' = history w ++ new /\
    Forall (fun o => (obs_snapshot o).1.1 = true) new /\
    (persisted_only new = [] \/ persisted_only new = [(true, T, t2)]).
Proof.
  intros Hf. destruct w as [c a ti st d u n h]. unfold fields in Hf. cbn in Hf.
  injection Hf as -> -> ->.
  unfold start_timer. unfold_monad. cbn.
  rewrite bool_decide_eq_true_2 by reflexivity. cbn.
  local_save; eexists; eexists;
    (split; [reflexivity|]); (split; [reflexivity|]);
    (split; [cbn; rewrite <- !app_assoc; cbn; reflexivity|]);
    (split; [repeat constructor|]); cbn; auto.
Qed.

(** [stop_timer] returns with the three fields cleared; what it persists
    is the cleared state. *)
Lemma local_stop_timer_returns (w : t) (ended_ts : float) :
  exists w' new,
    stop_timer ended_ts w = (inr tt, w') /\
    fields w' = (false, "", 0%float) /\
    history w' = history w ++ new /\
    Forall (fun s => s = (false, "", 0%float)) (persisted_only new).
Proof.
  destruct w as [c a ti st d u n h].
  unfold stop_timer. unfold_monad. cbn.
  local_save; eexists; eexists;
    (split; [reflexivity|]); (split; [reflexivity|]);
    (split; [cbn; rewrite <- !app_assoc; cbn; reflexivity|]);
    cbn; repeat constructor.
Qed.

End LocalTimerFacts.

Module GoogleTimerFacts.
Import GoogleBackend.

Section Facts.
Context {R : Type} `{GoogleApi R}.

Lemma google_save_timer_run (w : t R) :
  _save_timer w =
  (inr tt,
   if next_write_fails (disk w)
   then with_disk (mkDisk (tasks_json (disk w)) (timer_state_json (disk w))
                          (tail (write_fails (disk w)))) w
   else log (Persisted (fields w))
            (with_disk (mkDisk (tasks_json (disk w)) (Some (fields w))
                               (tail (write_fails (disk w)))) w)).
Proof.
  unfold _save_timer, write_timer_state_json. unfold_monad.
  destruct (next_write_fails (disk w)); reflexivity.
Qed.

Ltac google_save :=
  rewrite google_save_timer_run; cbn;
  match goal with
  | |- context [next_write_fails ?d] => destruct (next_write_fails d)
  end; cbn.

(** [start_timer] returns with the timer attached to the new title, and
    makes no call to the Google services. *)
Lemma google_start_timer_returns (w : t R) (title : string) (ts : float) :
  exists w', start_timer title ts w = (inr tt, w') /\
             fields w' = (true, title, ts) /\ _cache w' = _cache w /\
             remote w' = remote w.
Proof.
  destruct w as [c ix pf cn a ti st d r h].
  unfold start_timer. unfold_monad. cbn.
  destruct (a && negb (bool_decide (ti = title))); cbn.
  - google_save; google_save; eexists; repeat split; reflexivity.
  - google_save; eexists; repeat split; reflexivity.
Qed.

Lemma google_start_timer_same_title (w : t R) (T : string) (t1 t2 : float) :
  fields w = (true, T, t1) ->
  exists w' new,
    start_timer T t2 w = (inr tt, w') /\
    fields w' = (true, T, t2) /\
    remote w' = remote w /\
    history w' = history w ++ new /\
    Forall (fun o => (obs_snapshot o).1.1 = true) new /\
    (persisted_only new = [] \/ persisted_only new = [(true, T, t2)]).
Proof.
  intros Hf. destruct w as [c ix pf cn a ti st d r h]. unfold fields in Hf. cbn in Hf.
  injection Hf as -> -> ->.
  unfold start_timer. unfold_monad. cbn.
  rewrite bool_decide_eq_true_2 by reflexivity. cbn.
  google_save; eexists; eexists;
    (split; [reflexivity|]); (split; [reflexivity|]); (split; [reflexivity|]);
    (split; [cbn; rewrite <- !app_assoc; cbn; reflexivity|]);
    (split; [repeat constructor|]); cbn; auto.
Qed.

(** [stop_timer] returns with the three fields cleared whatever the
    Google services answer. *)
Lemma google_stop_timer_returns (w : t R) (ended_ts : float) :
  exists w' new,
    stop_timer ended_ts w = (inr tt, w') /\
    fields w' = (false, "", 0%float) /\
    history w' = history w ++ new /\
    Forall (fun s => s = (false, "", 0%float)) (persisted_only new).
Proof.
  destruct w as [c ix pf cn a ti st d r h].
  unfold stop_timer, call. unfold_monad. cbn.
  destruct (a && (0 <? st)%float); cbn.
  - destruct (_write_time_slot _ _ _ _ _ r) as [[e|[]] r']; cbn;
      google_save; eexists; eexists;
      (split; [reflexivity|]); (split; [reflexivity|]);
      (split; [cbn; rewrite <- !app_assoc; cbn; reflexivity|]);
      cbn; repeat constructor.
  - google_save; eexists; eexists;
      (split; [reflexivity|]); (split; [reflexivity|]);
      (split; [cbn; rewrite <- !app_assoc; cbn; reflexivity|]);
      cbn; repeat constructor.
Qed.

End Facts.
End GoogleTimerFacts.

(** ** Timer state *)

(** C1, as amended: when [start_timer] or [stop_timer] returns, on either
    backend, the in-memory timer state satisfies "inactive implies empty
    title and zero start", and every snapshot [stop_timer] persists
    satisfies it. *)
Theorem timer_invariant_at_return :
  (forall (w : LocalJsonBackend.t) title ts,
      timer_invariant (LocalJsonBackend.fields (LocalJsonBackend.start_timer title ts w).2)) /\
  (forall (w : LocalJsonBackend.t) ended_ts,
      timer_invariant (LocalJsonBackend.fields (LocalJsonBackend.stop_timer ended_ts w).2) /\
      exists new,
        LocalJsonBackend.history (LocalJsonBackend.stop_timer ended_ts w).2
          = LocalJsonBackend.history w ++ new /\
        Forall timer_invariant (persisted_only new)) /\
  (forall R (api : GoogleApi R) (w : GoogleBackend.t R) title ts,
      timer_invariant (GoogleBackend.fields (GoogleBackend.start_timer title ts w).2)) /\
  (forall R (api : GoogleApi R) (w : GoogleBackend.t R) ended_ts,
      timer_invariant (GoogleBackend.fields (GoogleBackend.stop_timer ended_ts w).2) /\
      exists new,
        GoogleBackend.history (GoogleBackend.stop_timer ended_ts w).2
          = GoogleBackend.history w ++ new /\
        Forall timer_invariant (persisted_only new)).
Proof.
  assert (Hclear : forall l, Forall (fun s : snapshot => s = (false, "", 0%float)) l ->
                             Forall timer_invariant l).
  { intros l Hl. eapply Forall_impl; [exact Hl|]. intros s ->. cbn. auto. }
  split; [|split; [|split]].
  - intros w title ts.
    destruct (LocalTimerFacts.local_start_timer_returns w title ts) as (w' & E & F & _).
    rewrite E; cbn [snd]; rewrite F. cbn. discriminate.
  - intros w ended_ts.
    destruct (LocalTimerFacts.local_stop_timer_returns w ended_ts) as (w' & new & E & F & Hh & Hp).
    rewrite E; cbn [snd]; rewrite F. split; [cbn; auto|].
    exists new. split; [exact Hh | auto].
  - intros R api w title ts.
    destruct (GoogleTimerFacts.google_start_timer_returns w title ts) as (w' & E & F & _).
    rewrite E; cbn [snd]; rewrite F. cbn. discriminate.
  - intros R api w ended_ts.
    destruct (GoogleTimerFacts.google_stop_timer_returns w ended_ts) as (w' & new & E & F & Hh & Hp).
    rewrite E; cbn [snd]; rewrite F. split; [cbn; auto|].
    exists new. split; [exact Hh | auto].
Qed.

(** C1, as stated, fails: switching from "A" to "B" persists the snapshot
    [(false, "A", 100)] on both backends, and while [stop_timer] runs the
    fields read [(false, "A", 100)] after its first assignment. *)
Lemma timer_invariant_broken_in_between :
  let bad : snapshot := (false, "A", 100%float) in
  (timer_invariant bad -> False) /\
  timer_invariant (LocalJsonBackend.fields local_running_A) /\
  In (Persisted bad)
     (LocalJsonBackend.history (LocalJsonBackend.start_timer "B" 160%float local_running_A).2) /\
  In (Persisted bad)
     (GoogleBackend.history
        (GoogleBackend.start_timer "B" 160%float (google_running_A fake_online)).2) /\
  In (InMemory bad)
     (LocalJsonBackend.history (LocalJsonBackend.stop_timer 160%float local_running_A).2).
Proof.
  cbn zeta. split.
  - cbn. intros Hinv. destruct (Hinv eq_refl) as [Ht _]. discriminate Ht.
  - split; [cbn; discriminate|].
    vm_compute. tauto.
Qed.

(** C2: two consecutive [start_timer] calls leave the timer on the second
    title with the second timestamp, on both backends; the remote backend
    reaches that state without any call to the Google services, so it
    records no interval for the first title. *)
Theorem start_timer_twice :
  (forall (w : LocalJsonBackend.t) A B t1 t2,
      exists w1 w2,
        LocalJsonBackend.start_timer A t1 w = (inr tt, w1) /\
        LocalJsonBackend.start_timer B t2 w1 = (inr tt, w2) /\
        LocalJsonBackend.fields w2 = (true, B, t2)) /\
  (forall R (api : GoogleApi R) (w : GoogleBackend.t R) A B t1 t2,
      exists w1 w2,
        GoogleBackend.start_timer A t1 w = (inr tt, w1) /\
        GoogleBackend.start_timer B t2 w1 = (inr tt, w2) /\
        GoogleBackend.fields w2 = (true, B, t2) /\
        GoogleBackend.remote w2 = GoogleBackend.remote w).
Proof.
  split.
  - intros w A B t1 t2.
    destruct (LocalTimerFacts.local_start_timer_returns w A t1) as (w1 & E1 & _).
    destruct (LocalTimerFacts.local_start_timer_returns w1 B t2) as (w2 & E2 & F2 & _).
    eauto.
  - intros R api w A B t1 t2.
    destruct (GoogleTimerFacts.google_start_timer_returns w A t1) as (w1 & E1 & _ & _ & R1).
    destruct (GoogleTimerFacts.google_start_timer_returns w1 B t2) as (w2 & E2 & F2 & _ & R2).
    exists w1, w2. repeat split; try assumption. congruence.
Qed.

(** The same switch on concrete inputs: after [start_timer("A", 100)] and
    [start_timer("B", 160)] the calendar holds no event, whereas stopping
    "A" at 160 through [stop_timer] records one. *)
Example google_switch_loses_interval :
  let w := google_idle fake_online in
  let w1 := (GoogleBackend.start_timer "A" 100%float w).2 in
  fg_events (GoogleBackend.remote (GoogleBackend.start_timer "B" 160%float w1).2) = [] /\
  fg_events (GoogleBackend.remote (GoogleBackend.stop_timer 160%float w1).2)
    = [("taskanov", mkEvent "A" "Logged via taskanov" "" "")].
Proof. vm_compute. split; reflexivity. Qed.

(** C10: while the timer of [T] is active since [t1], [start_timer(T, t2)]
    returns with [(true, T, t2)] on both backends; no point observed on the
    way, in memory or on disk, shows an inactive timer, at most the final
    state is persisted, and the remote backend makes no call to the Google
    services, so nothing is recorded for the interval from [t1] to [t2]. *)
Theorem restart_same_title :
  (forall (w : LocalJsonBackend.t) T t1 t2,
      LocalJsonBackend.fields w = (true, T, t1) ->
      exists w' new,
        LocalJsonBackend.start_timer T t2 w = (inr tt, w') /\
        LocalJsonBackend.fields w' = (true, T, t2) /\
        LocalJsonBackend.history w' = LocalJsonBackend.history w ++ new /\
        Forall (fun o => (obs_snapshot o).1.1 = true) new /\
        (persisted_only new = [] \/ persisted_only new = [(true, T, t2)])) /\
  (forall R (api : GoogleApi R) (w : GoogleBackend.t R) T t1 t2,
      GoogleBackend.fields w = (true, T, t1) ->
      exists w' new,
        GoogleBackend.start_timer T t2 w = (inr tt, w') /\
        GoogleBackend.fields w' = (true, T, t2) /\
        GoogleBackend.remote w' = GoogleBackend.remote w /\
        GoogleBackend.history w' = GoogleBackend.history w ++ new /\
        Forall (fun o => (obs_snapshot o).1.1 = true) new /\
        (persisted_only new = [] \/ persisted_only new = [(true, T, t2)])).
Proof.
  split.
  - intros w T t1 t2 Hf. exact (LocalTimerFacts.local_start_timer_same_title w T t1 t2 Hf).
  - intros R api w T t1 t2 Hf. exact (GoogleTimerFacts.google_start_timer_same_title w T t1 t2 Hf).
Qed.

Lemma restart_same_title_witness :
  LocalJsonBackend.fields local_running_A = (true, "A", 100%float) /\
  GoogleBackend.fields (google_running_A fake_online) = (true, "A", 100%float) /\
  (exists w' new,
      LocalJsonBackend.start_timer "A" 160%float local_running_A = (inr tt, w') /\
      LocalJsonBackend.fields w' = (true, "A", 160%float) /\
      LocalJsonBackend.history w' = LocalJsonBackend.history local_running_A ++ new /\
      Forall (fun o => (obs_snapshot o).1.1 = true) new /\
      (persisted_only new = [] \/ persisted_only new = [(true, "A", 160%float)])) /\
  (exists w' new,
      GoogleBackend.start_timer "A" 160%float (google_running_A fake_online) = (inr tt, w') /\
      GoogleBackend.fields w' = (true, "A", 160%float) /\
      GoogleBackend.remote w' = fake_online /\
      GoogleBackend.history w' = GoogleBackend.history (google_running_A fake_online) ++ new /\
      Forall (fun o => (obs_snapshot o).1.1 = true) new /\
      (persisted_only new = [] \/ persisted_only new = [(true, "A", 160%float)])).
Proof.
  split; [reflexivity|]. split; [reflexivity|]. split.
  - apply (proj1 restart_same_title local_running_A "A" 100%float 160%float).
    reflexivity.
  - apply (proj2 restart_same_title FakeGoogle FakeGoogle_Api
             (google_running_A fake_online) "A" 100%float 160%float).
    reflexivity.
Defined.

(** C3: [stop_timer] returns normally on both backends, for every state
    and timestamp and whatever the Google services answer, and leaves
    [active = false], [title = ""], [started = 0]. *)
Theorem stop_timer_always_clears :
  (forall (w : LocalJsonBackend.t) ended_ts,
      exists w', LocalJsonBackend.stop_timer ended_ts w = (inr tt, w') /\
                 LocalJsonBackend.fields w' = (false, "", 0%float)) /\
  (forall R (api : GoogleApi R) (w : GoogleBackend.t R) ended_ts,
      exists w', GoogleBackend.stop_timer ended_ts w = (inr tt, w') /\
                 GoogleBackend.fields w' = (false, "", 0%float)).
Proof.
  split.
  - intros w e.
    destruct (LocalTimerFacts.local_stop_timer_returns w e) as (w' & _ & E & F & _). eauto.
  - intros R api w e.
    destruct (GoogleTimerFacts.google_stop_timer_returns w e) as (w' & _ & E & F & _). eauto.
Qed.

(** With the services unreachable the recording raises inside
    [stop_timer], which still returns with the timer cleared. *)
Example stop_timer_offline :
  GoogleBackend.stop_timer 160%float (google_running_A fake_offline) =
  (inr tt,
   GoogleBackend.mk [] ∅ None "taskanov" false "" 0%float
     (mkDisk [] (Some (false, "", 0%float)) []) fake_offline
     [InMemory (false, "A", 100%float); InMemory (false, "", 100%float);
      InMemory (false, "", 0%float); Persisted (false, "", 0%float)]).
Proof. vm_compute. reflexivity. Qed.

(** The scenario of the spec on the local store: [ensure("A")], then
    [start_timer("A", 100)], then [stop_timer(160)] leaves
    [get_active_timer()] at [(False, "", 0)]. *)
Example local_scenario :
  let w1 := (LocalJsonBackend.ensure "A" local_idle).2 in
  let w2 := (LocalJsonBackend.start_timer "A" 100%float w1).2 in
  let w3 := (LocalJsonBackend.stop_timer 160%float w2).2 in
  LocalJsonBackend.get_active_timer w2 = (inr (true, "A", 100%float), w2) /\
  LocalJsonBackend.get_active_timer w3 = (inr (false, "", 0%float), w3) /\
  timer_state_json (LocalJsonBackend.disk w3) = Some (false, "", 0%float).
Proof. vm_compute. repeat split; reflexivity. Qed.

(** C4: [_write_time_slot] with an end timestamp not after the start
    raises [ValueError] before any call to the calendar service: the
    remote side is left as it was, no event is inserted. *)
Theorem write_time_slot_rejects :
  forall R (api : GoogleApi R) (start_ts end_ts : float)
         (summary description calendar_name : string) (r : R),
    (end_ts <=? start_ts)%float = true ->
    _write_time_slot start_ts end_ts summary description calendar_name r =
    (inl (ValueError "ended_ts deve essere > started_ts"), r).
Proof.
  intros R api start_ts end_ts summary description calendar_name r Hle.
  unfold _write_time_slot. rewrite Hle. reflexivity.
Qed.

Lemma write_time_slot_rejects_witness :
  (100 <=? 100)%float = true /\
  _write_time_slot 100%float 100%float "A" "Logged via taskanov" "taskanov" fake_online =
  (inl (ValueError "ended_ts deve essere > started_ts"), fake_online).
Proof.
  split; [reflexivity|].
  apply (write_time_slot_rejects FakeGoogle FakeGoogle_Api 100%float 100%float
           "A" "Logged via taskanov" "taskanov" fake_online).
  reflexivity.
Defined.

(** An interval with the end after the start is recorded when the
    services answer. *)
Example write_time_slot_records :
  _write_time_slot 100%float 160%float "A" "Logged via taskanov" "taskanov" fake_online =
  (inr tt, mkFake true [mkTaskList "L1" (Some "Inbox")] ["t1"; "t2"]
             [("taskanov", mkEvent "A" "Logged via taskanov" "" "")]).
Proof. vm_compute. reflexivity. Qed.

(** ** The notification scheduler *)

(** C5, as amended: the scheduler [main] builds has a period of 300
    seconds, passed explicitly as [60*5]; the default of the constructor,
    used when no interval is given, is [1.0] second; a tick never changes
    the period. *)
Theorem scheduler_period :
  TickerNotifier.interval main_notifier = PyInt 300 /\
  TickerNotifier.interval (TickerNotifier.__init__ None) = PyFloat 1%float /\
  (forall B (backend : Backend B) (w : TickerNotifier.World B),
      TickerNotifier.interval (TickerNotifier.self (TickerNotifier._run_body w).2) =
      TickerNotifier.interval (TickerNotifier.self w)).
Proof.
  split; [reflexivity|]. split; [reflexivity|].
  intros B backend w. unfold TickerNotifier._run_body, TickerNotifier.notify.
  unfold_monad. cbn.
  destruct (get_active_timer (TickerNotifier.store w)) as [[e|a] b]; cbn.
  - reflexivity.
  - destruct (negb a.1.1); reflexivity.
Qed.

(** C5, as stated, fails: a notifier built without an interval has a
    period of one second, which is less than 300. *)
Lemma scheduler_default_is_one_second :
  TickerNotifier.interval (TickerNotifier.__init__ None) = PyFloat 1%float /\
  (1 <? 300)%float = true.
Proof. split; reflexivity. Qed.

(** C7: on either backend one tick returns normally, leaves the store
    exactly as it was, and appends exactly one request to the outbox: the
    generic reminder when the store's timer is inactive, the reminder
    naming the timer's title when it is active. *)
Theorem tick_sends_one_reminder :
  (forall (w : TickerNotifier.World LocalJsonBackend.t),
      TickerNotifier._run_body w =
      (inr tt,
       TickerNotifier.mkWorld (ticked (TickerNotifier.self w)) (TickerNotifier.store w)
         (TickerNotifier.outbox w ++
          [mkNotification "taskanov"
             (tick_message (LocalJsonBackend.fields (TickerNotifier.store w)))]))) /\
  (forall R (api : GoogleApi R) (w : TickerNotifier.World (GoogleBackend.t R)),
      TickerNotifier._run_body w =
      (inr tt,
       TickerNotifier.mkWorld (ticked (TickerNotifier.self w)) (TickerNotifier.store w)
         (TickerNotifier.outbox w ++
          [mkNotification "taskanov"
             (tick_message (GoogleBackend.fields (TickerNotifier.store w)))]))).
Proof.
  split.
  - intros [n b o]. destruct b as [c a ti st d u k h].
    unfold TickerNotifier._run_body, TickerNotifier.notify, tick_message.
    unfold_monad. cbn. destruct a; reflexivity.
  - intros R api [n b o]. destruct b as [c ix pf cn a ti st d r h].
    unfold TickerNotifier._run_body, TickerNotifier.notify, tick_message.
    unfold_monad. cbn. destruct a; reflexivity.
Qed.

(** The loop fires one such tick per elapsed period until the stop event
    is seen. *)
Example run_two_ticks :
  TickerNotifier.outbox
    (TickerNotifier._run [false; false; true; false]
       (TickerNotifier.mkWorld main_notifier local_running_A [])).2 =
  [mkNotification "taskanov" "Are you still working on A?";
   mkNotification "taskanov" "Are you still working on A?"].
Proof. vm_compute. reflexivity. Qed.

(** ** Idempotent creation *)

Arguments find_open : simpl never.

Lemma find_open_no_open (T : string) (c : list Task.t) :
  List.filter (fun x => negb (Task.done x)) c = [] -> find_open T c = None.
Proof.
  unfold find_open. induction c as [|x c IH]; cbn; [reflexivity|].
  destruct (Task.done x); cbn.
  - intros Hc. rewrite andb_false_r. auto.
  - discriminate.
Qed.

Lemma find_open_snoc (T : string) (c : list Task.t) (x : Task.t) :
  find_open T c = None ->
  Task.title x = T -> Task.done x = false ->
  find_open T (c ++ [x]) = Some x.
Proof.
  unfold find_open. intros Hc Ht Hd.
  induction c as [|y c IH]; cbn in *.
  - rewrite Ht, Hd, bool_decide_eq_true_2 by reflexivity. reflexivity.
  - destruct (bool_decide (Task.title y = T) && negb (Task.done y)); [discriminate|auto].
Qed.

Module LocalEnsureFacts.
Import LocalJsonBackend.

Lemma local_ensure_twice (w : t) (T : string) :
  list_open w = [] ->
  next_write_fails (disk w) = false ->
  exists t1 w1,
    ensure T w = (inr t1, w1) /\
    Task.title t1 = T /\ Task.done t1 = false /\
    _cache w1 = _cache w ++ [t1] /\
    ensure T w1 = (inr t1, w1).
Proof.
  destruct w as [c a ti st d u n h]. unfold list_open. cbn. intros Hopen Hw.
  pose proof (find_open_no_open T c Hopen) as Hnone.
  set (nt := Task.mk (u n) T false None).
  assert (Hsome : find_open T (c ++ [nt]) = Some nt)
    by (apply find_open_snoc; auto).
  unfold ensure, _save, _write, write_tasks_json. unfold_monad. cbn.
  rewrite Hnone. cbn. rewrite Hw. cbn. fold nt.
  eexists; eexists. split; [reflexivity|]. cbn.
  rewrite Hsome. repeat split; reflexivity.
Qed.

End LocalEnsureFacts.

Module GoogleEnsureFacts.
Import GoogleBackend.

Section Facts.
Context {R : Type} `{GoogleApi R}.

(** [_default_list_id] only talks to the Google services. *)
Lemma default_list_id_frame (w w' : t R) (res : exn + string) :
  _default_list_id w = (res, w') -> w' = with_remote (remote w') w.
Proof.
  destruct w as [c ix pf cn a ti st d r h].
  unfold _default_list_id, call. unfold_monad. cbn.
  destruct (_tasks_service r) as [[e|[]] r1]; cbn.
  { intros [= <- <-]. reflexivity. }
  destruct (tasklists_list r1) as [[e|lists] r2]; cbn.
  { intros [= <- <-]. reflexivity. }
  match goal with
  | |- context [match ?b with Some _ => _ | None => _ end] => destruct b
  end; cbn.
  { intros [= <- <-]. reflexivity. }
  destruct lists; cbn.
  - destruct (tasklists_insert "My Tasks" r2) as [res' r3]; cbn.
    intros [= <- <-]. reflexivity.
  - intros [= <- <-]. reflexivity.
Qed.

Lemma google_ensure_twice (w w1 : t R) (T : string) (t1 : Task.t) :
  list_open w = [] ->
  ensure T w = (inr t1, w1) ->
  Task.title t1 = T /\ Task.done t1 = false /\
  _cache w1 = _cache w ++ [t1] /\
  ensure T w1 = (inr t1, w1).
Proof.
  unfold list_open. intros Hopen.
  pose proof (find_open_no_open T (_cache w) Hopen) as Hnone.
  unfold ensure at 1. unfold bind at 1, gets at 1. rewrite Hnone.
  unfold bind at 1.
  destruct (_default_list_id w) as [[e|lid] w2] eqn:E; [discriminate|].
  apply default_list_id_frame in E.
  destruct w as [c ix pf cn a ti st d r h].
  destruct w2 as [c2 ix2 pf2 cn2 a2 ti2 st2 d2 r2 h2].
  unfold with_remote in E. cbn in E, Hnone, Hopen. inversion E; subst; clear E.
  unfold call. unfold_monad. cbn.
  destruct (_tasks_service _) as [[e|[]] r3]; cbn; [discriminate|].
  destruct (tasks_insert lid T r3) as [[e|cid] r4]; cbn; [discriminate|].
  intros [= <- <-]. cbn.
  split; [reflexivity|]. split; [reflexivity|]. split; [reflexivity|].
  unfold ensure. unfold_monad. cbn.
  rewrite find_open_snoc by auto. reflexivity.
Qed.

End Facts.
End GoogleEnsureFacts.

(** C8: on a store with no open task, [ensure(T)] creates a task with
    [done = false] and appends it to the cache, and a second [ensure(T)]
    returns that very task and leaves the store as it was. On the local
    backend the first call returns whenever the write of the task document
    succeeds; on the remote backend, whenever the Google services answer. *)
Theorem ensure_idempotent :
  (forall (w : LocalJsonBackend.t) T,
      LocalJsonBackend.list_open w = [] ->
      next_write_fails (LocalJsonBackend.disk w) = false ->
      exists t1 w1,
        LocalJsonBackend.ensure T w = (inr t1, w1) /\
        Task.title t1 = T /\ Task.done t1 = false /\
        LocalJsonBackend._cache w1 = LocalJsonBackend._cache w ++ [t1] /\
        LocalJsonBackend.ensure T w1 = (inr t1, w1)) /\
  (forall R (api : GoogleApi R) (w w1 : GoogleBackend.t R) T t1,
      GoogleBackend.list_open w = [] ->
      GoogleBackend.ensure T w = (inr t1, w1) ->
      Task.title t1 = T /\ Task.done t1 = false /\
      GoogleBackend._cache w1 = GoogleBackend._cache w ++ [t1] /\
      GoogleBackend.ensure T w1 = (inr t1, w1)).
Proof.
  split.
  - intros w T. apply LocalEnsureFacts.local_ensure_twice.
  - intros R api w w1 T t1. apply GoogleEnsureFacts.google_ensure_twice.
Qed.

Lemma ensure_idempotent_witness :
  let w := google_idle fake_online in
  let t1 := Task.mk "L1::t1" "A" false None in
  let w1 := (GoogleBackend.ensure "A" w).2 in
  LocalJsonBackend.list_open local_idle = [] /\
  next_write_fails (LocalJsonBackend.disk local_idle) = false /\
  (exists t1 w1,
      LocalJsonBackend.ensure "A" local_idle = (inr t1, w1) /\
      Task.title t1 = "A" /\ Task.done t1 = false /\
      LocalJsonBackend._cache w1 = LocalJsonBackend._cache local_idle ++ [t1] /\
      LocalJsonBackend.ensure "A" w1 = (inr t1, w1)) /\
  GoogleBackend.list_open w = [] /\
  GoogleBackend.ensure "A" w = (inr t1, w1) /\
  (Task.title t1 = "A" /\ Task.done t1 = false /\
   GoogleBackend._cache w1 = GoogleBackend._cache w ++ [t1] /\
   GoogleBackend.ensure "A" w1 = (inr t1, w1)).
Proof.
  cbv zeta.
  split; [reflexivity|]. split; [reflexivity|]. split.
  - apply (proj1 ensure_idempotent local_idle "A"); reflexivity.
  - split; [reflexivity|]. split; [vm_compute; reflexivity|].
    apply (proj2 ensure_idempotent FakeGoogle FakeGoogle_Api
             (google_idle fake_online)
             (GoogleBackend.ensure "A" (google_idle fake_online)).2
             "A" (Task.mk "L1::t1" "A" false None)).
    + reflexivity.
    + vm_compute; reflexivity.
Defined.

(** ** Filtering *)

Lemma all_bool_spec (f : bool -> bool) :
  all_bool f = true -> forall b, f b = true.
Proof.
  unfold all_bool. intros Hf b. apply andb_true_iff in Hf as [Ht Hff].
  destruct b; assumption.
Qed.

Lemma all_ascii_spec (f : ascii -> bool) :
  all_ascii f = true -> forall c, f c = true.
Proof.
  unfold all_ascii. intros Hf [b0 b1 b2 b3 b4 b5 b6 b7].
  pose proof (all_bool_spec _ Hf b0) as H0; cbv beta in H0.
  pose proof (all_bool_spec _ H0 b1) as H1; cbv beta in H1.
  pose proof (all_bool_spec _ H1 b2) as H2; cbv beta in H2.
  pose proof (all_bool_spec _ H2 b3) as H3; cbv beta in H3.
  pose proof (all_bool_spec _ H3 b4) as H4; cbv beta in H4.
  pose proof (all_bool_spec _ H4 b5) as H5; cbv beta in H5.
  pose proof (all_bool_spec _ H5 b6) as H6; cbv beta in H6.
  exact (all_bool_spec _ H6 b7).
Qed.

(** Lower-casing identifies exactly the characters that are the same up
    to case. *)
Lemma lower_ascii_same_char (c d : ascii) :
  Ascii.eqb (lower_ascii c) (lower_ascii d) = same_char_ignoring_case c d.
Proof.
  assert (Hall : all_ascii (fun c => all_ascii (fun d =>
            Bool.eqb (Ascii.eqb (lower_ascii c) (lower_ascii d))
                     (same_char_ignoring_case c d))) = true)
    by (vm_compute; reflexivity).
  pose proof (all_ascii_spec _ (all_ascii_spec _ Hall c) d) as Hcd.
  cbv beta in Hcd. apply Bool.eqb_prop in Hcd. exact Hcd.
Qed.

Lemma lower_eq_ignoring_case (s u : string) :
  lower s = lower u <-> eq_ignoring_case s u.
Proof.
  split.
  - revert u. induction s as [|c s IH]; intros [|d u]; cbn; try discriminate.
    + intros _. constructor.
    + intros [= Hc Hs]. constructor; [|auto].
      rewrite <- lower_ascii_same_char. rewrite Hc. apply Ascii.eqb_refl.
  - induction 1 as [|c d s u Hcd _ IH]; cbn; [reflexivity|].
    rewrite <- lower_ascii_same_char in Hcd. apply Ascii.eqb_eq in Hcd.
    congruence.
Qed.

#[local] Arguments String.append !s1 s2 : simpl nomatch.

Lemma lower_app (s u : string) : lower (s +:+ u) = lower s +:+ lower u.
Proof. induction s as [|c s IH]; cbn; [reflexivity|]. rewrite IH. reflexivity. Qed.

(** A split of the lower-cased string comes from a split of the string. *)
Lemma lower_split (s a b : string) :
  lower s = a +:+ b ->
  exists s1 s2, s = s1 +:+ s2 /\ lower s1 = a /\ lower s2 = b.
Proof.
  revert s. induction a as [|c a IH]; intros s; cbn.
  - intros Hs. exists EmptyString, s. auto.
  - destruct s as [|x s]; cbn; [discriminate|].
    intros [= Hx Hs]. destruct (IH s Hs) as (s1 & s2 & -> & <- & <-).
    exists (String x s1), s2. cbn. rewrite Hx. auto.
Qed.

Lemma prefix_spec (n h : string) :
  String.prefix n h = true <-> exists post, h = n +:+ post.
Proof.
  revert n. induction h as [|b h IH]; intros [|a n]; cbn.
  - split; [intros _; exists EmptyString; reflexivity | reflexivity].
  - split; [discriminate | intros [post Hp]; discriminate].
  - split; [intros _; eexists; reflexivity | reflexivity].
  - destruct (ascii_dec a b) as [->|Hab].
    + rewrite IH. split; intros [post Hp]; exists post; congruence.
    + split; [discriminate | intros [post Hp]; congruence].
Qed.

(** [needle in hay] holds exactly when [needle] is a run of consecutive
    characters of [hay]. *)
Lemma str_in_spec (n h : string) :
  str_in n h = true <-> exists pre post, h = pre +:+ n +:+ post.
Proof.
  induction h as [|b h IH].
  - change (str_in n EmptyString) with (String.prefix n EmptyString || false).
    rewrite orb_false_r, prefix_spec. split.
    + intros [post Hp]. exists EmptyString, post. exact Hp.
    + intros (pre & post & Hp). destruct pre; cbn in Hp; [eauto | discriminate].
  - change (str_in n (String b h)) with (String.prefix n (String b h) || str_in n h).
    rewrite orb_true_iff, prefix_spec, IH. split.
    + intros [[post Hp] | (pre & post & Hp)].
      * exists EmptyString, post. exact Hp.
      * exists (String b pre), post. cbn. congruence.
    + intros (pre & post & Hp). destruct pre as [|x pre]; cbn in Hp.
      * left. eauto.
      * right. exists pre, post. congruence.
Qed.

(** The test the controller runs, [ft.lower() in title.lower()], decides
    the spec's case-insensitive substring relation. *)
Lemma str_in_lower_spec (ft title : string) :
  str_in (lower ft) (lower title) = true <-> ci_substring ft title.
Proof.
  rewrite str_in_spec. unfold ci_substring. split.
  - intros (pre' & post' & Hl).
    destruct (lower_split _ _ _ Hl) as (pre & rest & -> & _ & Hrest).
    destruct (lower_split _ _ _ Hrest) as (mid & post & -> & Hmid & _).
    exists pre, mid, post. split; [reflexivity|].
    apply lower_eq_ignoring_case. exact Hmid.
  - intros (pre & mid & post & -> & Hmid).
    apply lower_eq_ignoring_case in Hmid.
    exists (lower pre), (lower post). rewrite !lower_app, Hmid. reflexivity.
Qed.

Lemma ci_substring_empty_needle (s : string) : ci_substring EmptyString s.
Proof. exists EmptyString, EmptyString, s. split; [reflexivity | constructor]. Qed.

Lemma ci_substring_empty_hay (ft : string) :
  ci_substring ft EmptyString -> ft = EmptyString.
Proof.
  intros (pre & mid & post & Hs & Hm).
  destruct pre; cbn in Hs; [|discriminate].
  destruct mid; cbn in Hs; [|discriminate].
  inversion Hm. reflexivity.
Qed.

(** C9: for every filter text, a task is in the filtered open pane exactly
    when it is an open task whose title, or whose group label, contains
    the filter text as a case-insensitive substring, and in the filtered
    done pane exactly when it is a done task whose title does. *)
Theorem filtered_views_are_substring_matches :
  forall B (contract : Backend B) (ui : TaskTUI.t B) (x : Task.t),
    (In x (TaskTUI._filtered_open ui) <->
       In x (list_open (TaskTUI.backend ui)) /\
       (ci_substring (TaskTUI.filter_text ui) (Task.title x) \/
        exists l, Task.list_title x = Some l /\
                  ci_substring (TaskTUI.filter_text ui) l)) /\
    (In x (TaskTUI._filtered_done ui) <->
       In x (list_done (TaskTUI.backend ui)) /\
       ci_substring (TaskTUI.filter_text ui) (Task.title x)).
Proof.
  intros B contract [b fd io idn ft] x.
  unfold TaskTUI._filtered_open, TaskTUI._filtered_done. cbn.
  case_bool_decide as Hft.
  - subst ft. split; (split; [intros Hin | intros [Hin _]; exact Hin]).
    + split; [exact Hin | left; apply ci_substring_empty_needle].
    + split; [exact Hin | apply ci_substring_empty_needle].
  - split.
    + rewrite List.filter_In, orb_true_iff, str_in_lower_spec.
      apply and_iff_compat_l. apply or_iff_compat_l.
      destruct (Task.list_title x) as [l|].
      * rewrite andb_true_iff, negb_true_iff, bool_decide_eq_false, str_in_lower_spec.
        split.
        -- intros [_ Hl]. exists l. auto.
        -- intros (l' & [= <-] & Hl). split; [|exact Hl].
           intros ->. apply Hft. apply ci_substring_empty_hay. exact Hl.
      * split; [discriminate | intros (l & Hl & _); discriminate].
    + rewrite List.filter_In, str_in_lower_spec. reflexivity.
Qed.

(** The example of the spec: with the filter "write", "Buy milk" drops out
    of the open pane and "Write report" stays in both panes. *)
Example filter_write :
  let open_tasks := [Task.mk "1" "Buy milk" false None; Task.mk "2" "Write report" false None] in
  let done_tasks := [Task.mk "3" "Write report" true None] in
  let store := LocalJsonBackend.mk (open_tasks ++ done_tasks) false "" 0%float
                 (mkDisk [] None []) (fun _ => "u") 0 [] in
  let ui := TaskTUI.mk store false 0 0 "write" in
  map Task.id (TaskTUI._filtered_open ui) = ["2"] /\
  map Task.id (TaskTUI._filtered_done ui) = ["3"].
Proof. vm_compute. split; reflexivity. Qed.


(** ** Toggling and deleting on the local backend *)

Module LocalTaskFacts.
Import LocalJsonBackend LocalJsonTasks.

Lemma toggle_loop_absent (task_id : string) (c : list Task.t) :
  Forall (fun x => ~ has_id task_id x) c -> toggle_loop task_id c = None.
Proof.
  induction 1 as [|x c Hx _ IH]; cbn; [reflexivity|].
  rewrite bool_decide_eq_false_2 by exact Hx. rewrite IH. reflexivity.
Qed.

Lemma toggle_loop_first (task_id : string) (pre post : list Task.t) (x : Task.t) :
  Forall (fun y => ~ has_id task_id y) pre -> has_id task_id x ->
  toggle_loop task_id (pre ++ x :: post) = Some (flipped x, pre ++ flipped x :: post).
Proof.
  intros Hpre Hx. induction Hpre as [|y pre Hy _ IH]; cbn.
  - rewrite bool_decide_eq_true_2 by exact Hx. reflexivity.
  - rewrite bool_decide_eq_false_2 by exact Hy. rewrite IH. reflexivity.
Qed.

(** Every cache either has no task with the id, or splits at the first. *)
Lemma first_with_id (task_id : string) (c : list Task.t) :
  Forall (fun x => ~ has_id task_id x) c \/
  exists pre x post, c = pre ++ x :: post /\
                     Forall (fun y => ~ has_id task_id y) pre /\ has_id task_id x.
Proof.
  induction c as [|y c IH]; [left; constructor|].
  destruct (decide (Task.id y = task_id)) as [Hy|Hy].
  - right. exists [], y, c. repeat split; [constructor | exact Hy].
  - destruct IH as [Hc | (pre & x & post & -> & Hpre & Hx)].
    + left. constructor; assumption.
    + right. exists (y :: pre), x, post. repeat split; [constructor; assumption | exact Hx].
Qed.

Lemma delete_loop_removed (task_id : string) (c acc : list Task.t) (r : Task.t) :
  fold_left (delete_step task_id) c (Some r, acc) = (Some r, acc ++ c).
Proof.
  revert acc. induction c as [|x c IH]; intros acc; cbn.
  - rewrite app_nil_r. reflexivity.
  - rewrite andb_false_r. rewrite IH, <- app_assoc. reflexivity.
Qed.

Lemma delete_loop_absent_acc (task_id : string) (c acc : list Task.t) :
  Forall (fun x => ~ has_id task_id x) c ->
  fold_left (delete_step task_id) c (None, acc) = (None, acc ++ c).
Proof.
  intros Hc. revert acc. induction Hc as [|x c Hx _ IH]; intros acc; cbn.
  - rewrite app_nil_r. reflexivity.
  - rewrite bool_decide_eq_false_2 by exact Hx. cbn.
    rewrite IH, <- app_assoc. reflexivity.
Qed.

Lemma delete_loop_absent (task_id : string) (c : list Task.t) :
  Forall (fun x => ~ has_id task_id x) c -> delete_loop task_id c = (None, c).
Proof. intros Hc. unfold delete_loop. rewrite delete_loop_absent_acc by exact Hc. reflexivity. Qed.

Lemma delete_loop_first (task_id : string) (pre post : list Task.t) (x : Task.t) :
  Forall (fun y => ~ has_id task_id y) pre -> has_id task_id x ->
  delete_loop task_id (pre ++ x :: post) = (Some x, pre ++ post).
Proof.
  intros Hpre Hx. unfold delete_loop. rewrite fold_left_app.
  rewrite delete_loop_absent_acc by exact Hpre. cbn.
  rewrite bool_decide_eq_true_2 by exact Hx. cbn.
  apply delete_loop_removed.
Qed.

Lemma toggle_run (task_id : string) (w : t) :
  toggle task_id w =
  match toggle_loop task_id (_cache w) with
  | None => (inr None, w)
  | Some (y, c') =>
      (write_result (disk w) (Some y),
       with_disk (after_write c' (disk w)) (with_cache c' w))
  end.
Proof.
  unfold toggle, _save, _write, write_tasks_json, write_result, after_write.
  unfold_monad. cbn.
  destruct (toggle_loop task_id (_cache w)) as [[y c']|]; [|reflexivity].
  cbn. destruct (next_write_fails (disk w)); reflexivity.
Qed.

Lemma delete_run (task_id : string) (w : t) :
  delete task_id w =
  (write_result (disk w) (delete_loop task_id (_cache w)).1,
   with_disk (after_write (delete_loop task_id (_cache w)).2 (disk w))
             (with_cache (delete_loop task_id (_cache w)).2 w)).
Proof.
  unfold delete, _save, _write, write_tasks_json, write_result, after_write.
  unfold_monad. cbn.
  destruct (delete_loop task_id (_cache w)) as [removed new_list].
  cbn. destruct (next_write_fails (disk w)); reflexivity.
Qed.

Lemma flipped_involutive (x : Task.t) : flipped (flipped x) = x.
Proof. destruct x as [i ti d l]. unfold flipped. cbn. rewrite negb_involutive. reflexivity. Qed.

End LocalTaskFacts.

(** X1: on the local backend [toggle] of an id that no cached task has
    returns [None] and changes nothing: no task is flipped and the task
    document is not rewritten. *)
Theorem local_toggle_unknown_id :
  forall (w : LocalJsonBackend.t) (task_id : string),
    Forall (fun x => Task.id x <> task_id) (LocalJsonBackend._cache w) ->
    LocalJsonTasks.toggle task_id w = (inr None, w).
Proof.
  intros w task_id Habs. rewrite LocalTaskFacts.toggle_run.
  rewrite LocalTaskFacts.toggle_loop_absent by exact Habs. reflexivity.
Qed.

Lemma local_toggle_unknown_id_witness :
  Forall (fun x => Task.id x <> "9")
         (LocalJsonBackend._cache
            (LocalJsonBackend.with_cache [Task.mk "1" "Buy milk" false None] local_idle)) /\
  LocalJsonTasks.toggle "9"
    (LocalJsonBackend.with_cache [Task.mk "1" "Buy milk" false None] local_idle) =
  (inr None, LocalJsonBackend.with_cache [Task.mk "1" "Buy milk" false None] local_idle).
Proof.
  assert (Habs : Forall (fun x => Task.id x <> "9")
            (LocalJsonBackend._cache
               (LocalJsonBackend.with_cache [Task.mk "1" "Buy milk" false None] local_idle))).
  { repeat constructor. cbn. discriminate. }
  split; [exact Habs|].
  exact (local_toggle_unknown_id _ "9" Habs).
Defined.

(** X2: when the write succeeds, local [toggle] flips [done] of exactly the
    first cached task with the id, keeps every other task and the order,
    returns the flipped task, leaves the document equal to the cache and
    the timer untouched. *)
Theorem local_toggle_flips_first :
  forall (w : LocalJsonBackend.t) (task_id : string) (pre post : list Task.t) (x : Task.t),
    LocalJsonBackend._cache w = pre ++ x :: post ->
    Forall (fun y => Task.id y <> task_id) pre ->
    Task.id x = task_id ->
    next_write_fails (LocalJsonBackend.disk w) = false ->
    exists w',
      LocalJsonTasks.toggle task_id w = (inr (Some (LocalJsonTasks.flipped x)), w') /\
      LocalJsonBackend._cache w' = pre ++ LocalJsonTasks.flipped x :: post /\
      tasks_json (LocalJsonBackend.disk w') = LocalJsonBackend._cache w' /\
      LocalJsonBackend.fields w' = LocalJsonBackend.fields w.
Proof.
  intros w task_id pre post x Hc Hpre Hx Hw.
  rewrite LocalTaskFacts.toggle_run, Hc.
  rewrite (LocalTaskFacts.toggle_loop_first task_id pre post x Hpre Hx).
  unfold write_result, after_write. rewrite Hw.
  eexists. split; [reflexivity|]. cbn. auto.
Qed.

Lemma local_toggle_flips_first_witness :
  let a := Task.mk "1" "Buy milk" false None in
  let b := Task.mk "2" "Write report" false None in
  let w := LocalJsonBackend.with_cache [a; b] local_idle in
  exists w',
    LocalJsonTasks.toggle "2" w = (inr (Some (LocalJsonTasks.flipped b)), w') /\
    LocalJsonBackend._cache w' = [a] ++ LocalJsonTasks.flipped b :: [] /\
    tasks_json (LocalJsonBackend.disk w') = LocalJsonBackend._cache w' /\
    LocalJsonBackend.fields w' = LocalJsonBackend.fields w.
Proof.
  cbv zeta.
  apply (local_toggle_flips_first
           (LocalJsonBackend.with_cache
              [Task.mk "1" "Buy milk" false None; Task.mk "2" "Write report" false None]
              local_idle)
           "2" [Task.mk "1" "Buy milk" false None] []
           (Task.mk "2" "Write report" false None)).
  - reflexivity.
  - repeat constructor. cbn. discriminate.
  - reflexivity.
  - reflexivity.
Defined.

(** X3: when the write of the document fails, local [toggle] raises
    [OSError] after the task has been flipped in the cache: the cache and
    the document then disagree on that task. *)
Theorem local_toggle_failed_write :
  forall (w : LocalJsonBackend.t) (task_id : string) (pre post : list Task.t) (x : Task.t),
    LocalJsonBackend._cache w = pre ++ x :: post ->
    Forall (fun y => Task.id y <> task_id) pre ->
    Task.id x = task_id ->
    next_write_fails (LocalJsonBackend.disk w) = true ->
    exists w',
      LocalJsonTasks.toggle task_id w = (inl OSError, w') /\
      LocalJsonBackend._cache w' = pre ++ LocalJsonTasks.flipped x :: post /\
      tasks_json (LocalJsonBackend.disk w') = tasks_json (LocalJsonBackend.disk w).
Proof.
  intros w task_id pre post x Hc Hpre Hx Hw.
  rewrite LocalTaskFacts.toggle_run, Hc.
  rewrite (LocalTaskFacts.toggle_loop_first task_id pre post x Hpre Hx).
  unfold write_result, after_write. rewrite Hw.
  eexists. split; [reflexivity|]. cbn. auto.
Qed.

Lemma local_toggle_failed_write_witness :
  let a := Task.mk "1" "Buy milk" false None in
  let w := LocalJsonBackend.mk [a] false "" 0%float (mkDisk [a] None [true])
             (fun _ => "u") 0 [] in
  exists w',
    LocalJsonTasks.toggle "1" w = (inl OSError, w') /\
    LocalJsonBackend._cache w' = [] ++ LocalJsonTasks.flipped a :: [] /\
    tasks_json (LocalJsonBackend.disk w') = tasks_json (LocalJsonBackend.disk w).
Proof.
  cbv zeta.
  apply (local_toggle_failed_write
           (LocalJsonBackend.mk [Task.mk "1" "Buy milk" false None] false "" 0%float
              (mkDisk [Task.mk "1" "Buy milk" false None] None [true]) (fun _ => "u") 0 [])
           "1" [] [] (Task.mk "1" "Buy milk" false None)).
  - reflexivity.
  - constructor.
  - reflexivity.
  - reflexivity.
Defined.

(** X4: toggling the same id twice on the local backend restores the
    cache, whatever the writes do. *)
Theorem local_toggle_twice :
  forall (w : LocalJsonBackend.t) (task_id : string),
    LocalJsonBackend._cache
      (LocalJsonTasks.toggle task_id (LocalJsonTasks.toggle task_id w).2).2 =
    LocalJsonBackend._cache w.
Proof.
  intros w task_id.
  destruct (LocalTaskFacts.first_with_id task_id (LocalJsonBackend._cache w))
    as [Habs | (pre & x & post & Hc & Hpre & Hx)].
  - rewrite (LocalTaskFacts.toggle_run task_id w).
    rewrite (LocalTaskFacts.toggle_loop_absent task_id _ Habs). cbn [snd].
    rewrite (LocalTaskFacts.toggle_run task_id w).
    rewrite (LocalTaskFacts.toggle_loop_absent task_id _ Habs). reflexivity.
  - rewrite (LocalTaskFacts.toggle_run task_id w), Hc.
    rewrite (LocalTaskFacts.toggle_loop_first task_id pre post x Hpre Hx). cbn [snd].
    rewrite LocalTaskFacts.toggle_run. cbn [LocalJsonBackend._cache
      LocalJsonBackend.with_disk LocalJsonBackend.with_cache].
    rewrite (LocalTaskFacts.toggle_loop_first task_id pre post (LocalJsonTasks.flipped x) Hpre)
      by exact Hx.
    cbn. rewrite LocalTaskFacts.flipped_involutive. reflexivity.
Qed.


(** X5: when the write succeeds, local [delete] removes exactly the first
    cached task with the id and returns it; later tasks with the same id,
    every other task and the order stay, and the document equals the
    cache afterwards. *)
Theorem local_delete_removes_first :
  forall (w : LocalJsonBackend.t) (task_id : string) (pre post : list Task.t) (x : Task.t),
    LocalJsonBackend._cache w = pre ++ x :: post ->
    Forall (fun y => Task.id y <> task_id) pre ->
    Task.id x = task_id ->
    next_write_fails (LocalJsonBackend.disk w) = false ->
    exists w',
      LocalJsonTasks.delete task_id w = (inr (Some x), w') /\
      LocalJsonBackend._cache w' = pre ++ post /\
      tasks_json (LocalJsonBackend.disk w') = pre ++ post /\
      LocalJsonBackend.fields w' = LocalJsonBackend.fields w.
Proof.
  intros w task_id pre post x Hc Hpre Hx Hw.
  rewrite LocalTaskFacts.delete_run, Hc.
  rewrite (LocalTaskFacts.delete_loop_first task_id pre post x Hpre Hx).
  unfold write_result, after_write. rewrite Hw.
  eexists. split; [reflexivity|]. cbn. auto.
Qed.

Lemma local_delete_removes_first_witness :
  let a := Task.mk "1" "Buy milk" false None in
  let b := Task.mk "2" "Write report" false None in
  let b' := Task.mk "2" "Write report again" true None in
  let w := LocalJsonBackend.with_cache [a; b; b'] local_idle in
  exists w',
    LocalJsonTasks.delete "2" w = (inr (Some b), w') /\
    LocalJsonBackend._cache w' = [a] ++ [b'] /\
    tasks_json (LocalJsonBackend.disk w') = [a] ++ [b'] /\
    LocalJsonBackend.fields w' = LocalJsonBackend.fields w.
Proof.
  cbv zeta.
  apply (local_delete_removes_first
           (LocalJsonBackend.with_cache
              [Task.mk "1" "Buy milk" false None; Task.mk "2" "Write report" false None;
               Task.mk "2" "Write report again" true None]
              local_idle)
           "2" [Task.mk "1" "Buy milk" false None]
           [Task.mk "2" "Write report again" true None]
           (Task.mk "2" "Write report" false None)).
  - reflexivity.
  - repeat constructor. cbn. discriminate.
  - reflexivity.
  - reflexivity.
Defined.

(** X6: local [delete] of an id that no cached task has keeps the cache
    and yields [None], but unlike [toggle] it still rewrites the task
    document: a write is attempted, and when it fails [OSError] is raised
    although nothing was to be deleted. *)
Theorem local_delete_unknown_id :
  forall (w : LocalJsonBackend.t) (task_id : string),
    Forall (fun x => Task.id x <> task_id) (LocalJsonBackend._cache w) ->
    exists w',
      LocalJsonTasks.delete task_id w =
        (if next_write_fails (LocalJsonBackend.disk w) then inl OSError else inr None, w') /\
      LocalJsonBackend._cache w' = LocalJsonBackend._cache w /\
      write_fails (LocalJsonBackend.disk w') = tail (write_fails (LocalJsonBackend.disk w)) /\
      tasks_json (LocalJsonBackend.disk w') =
        (if next_write_fails (LocalJsonBackend.disk w)
         then tasks_json (LocalJsonBackend.disk w)
         else LocalJsonBackend._cache w).
Proof.
  intros w task_id Habs.
  rewrite LocalTaskFacts.delete_run.
  rewrite (LocalTaskFacts.delete_loop_absent task_id _ Habs).
  unfold write_result, after_write.
  eexists. split; [reflexivity|]. cbn. auto.
Qed.

Lemma local_delete_unknown_id_witness :
  let w := LocalJsonBackend.mk [Task.mk "1" "Buy milk" false None] false "" 0%float
             (mkDisk [] None [true]) (fun _ => "u") 0 [] in
  Forall (fun x => Task.id x <> "9") (LocalJsonBackend._cache w) /\
  exists w',
    LocalJsonTasks.delete "9" w =
      (if next_write_fails (LocalJsonBackend.disk w) then inl OSError else inr None, w') /\
    LocalJsonBackend._cache w' = LocalJsonBackend._cache w /\
    write_fails (LocalJsonBackend.disk w') = tail (write_fails (LocalJsonBackend.disk w)) /\
    tasks_json (LocalJsonBackend.disk w') =
      (if next_write_fails (LocalJsonBackend.disk w)
       then tasks_json (LocalJsonBackend.disk w)
       else LocalJsonBackend._cache w).
Proof.
  cbv zeta.
  assert (Habs : Forall (fun x => Task.id x <> "9")
            (LocalJsonBackend._cache
               (LocalJsonBackend.mk [Task.mk "1" "Buy milk" false None] false "" 0%float
                  (mkDisk [] None [true]) (fun _ => "u") 0 []))).
  { repeat constructor. cbn. discriminate. }
  split; [exact Habs|].
  exact (local_delete_unknown_id _ "9" Habs).
Defined.

Module LocalSyncFacts.
Import LocalJsonBackend LocalJsonTasks.

Lemma next_write_is_outcome_0 (d : Disk) : next_write_fails d = write_outcome 0 d.
Proof. unfold next_write_fails, write_outcome. destruct (write_fails d); reflexivity. Qed.

(** The timer operations leave the tasks alone, in memory and on disk. *)
Lemma start_timer_frame (w : t) (title : string) (ts : float) :
  _cache (start_timer title ts w).2 = _cache w /\
  tasks_json (disk (start_timer title ts w).2) = tasks_json (disk w).
Proof.
  destruct w as [c a ti st d u n h].
  unfold start_timer. unfold_monad. cbn.
  destruct (a && negb (bool_decide (ti = title))); cbn;
    repeat (rewrite LocalFacts.local_save_timer_run; cbn;
            match goal with
            | |- context [next_write_fails ?d] => destruct (next_write_fails d)
            end; cbn);
    split; reflexivity.
Qed.

Lemma stop_timer_frame (w : t) (ended_ts : float) :
  _cache (stop_timer ended_ts w).2 = _cache w /\
  tasks_json (disk (stop_timer ended_ts w).2) = tasks_json (disk w).
Proof.
  destruct w as [c a ti st d u n h].
  unfold stop_timer. unfold_monad. cbn.
  rewrite LocalFacts.local_save_timer_run; cbn.
  destruct (next_write_fails d); cbn; split; reflexivity.
Qed.

Lemma ensure_sync (w w' : t) (title : string) (x : Task.t) :
  in_sync w -> ensure title w = (inr x, w') -> in_sync w'.
Proof.
  unfold in_sync. destruct w as [c a ti st d u n h]. cbn. intros Hs.
  unfold ensure, _save, _write, write_tasks_json. unfold_monad. cbn.
  destruct (find_open title c) as [y|]; cbn.
  - intros [= _ <-]. exact Hs.
  - destruct (next_write_fails d); cbn; [discriminate|].
    intros [= _ <-]. reflexivity.
Qed.

Lemma run_call_sync (c : local_call) (w w' : t) :
  in_sync w -> run_call c w = (inr tt, w') -> in_sync w'.
Proof.
  unfold in_sync. intros Hs. destruct c as [|i|i|title|title ts|ts]; cbn [run_call].
  - unfold refresh, _read. unfold_monad. cbn. intros [= <-]. cbn. reflexivity.
  - unfold discard, bind at 1. rewrite LocalTaskFacts.toggle_run.
    destruct (toggle_loop i (_cache w)) as [[y c']|]; cbn.
    + unfold write_result, after_write.
      destruct (next_write_fails (disk w)); [discriminate|].
      intros [= <-]. reflexivity.
    + intros [= <-]. exact Hs.
  - unfold discard, bind at 1. rewrite LocalTaskFacts.delete_run.
    unfold write_result, after_write.
    destruct (next_write_fails (disk w)); cbn; [discriminate|].
    intros [= <-]. reflexivity.
  - unfold discard, bind at 1.
    destruct (ensure title w) as [[e|x] w1] eqn:E; cbn; [discriminate|].
    intros [= <-]. exact (ensure_sync w w1 title x Hs E).
  - intros E. destruct (start_timer_frame w title ts) as [Hc Hd].
    rewrite E in Hc, Hd. cbn in Hc, Hd. congruence.
  - intros E. destruct (stop_timer_frame w ts) as [Hc Hd].
    rewrite E in Hc, Hd. cbn in Hc, Hd. congruence.
Qed.

End LocalSyncFacts.

(** X7: on the local backend the task document and the cache stay equal
    across any sequence of calls (refresh, toggle, delete, ensure, start
    and stop of the timer) that all return normally; a [refresh] after
    such a sequence changes nothing. *)
Theorem local_calls_keep_document_in_sync :
  forall (cs : list local_call) (w w' : LocalJsonBackend.t),
    in_sync w ->
    run_calls cs w = (inr tt, w') ->
    in_sync w' /\ LocalJsonTasks.refresh w' = (inr tt, w').
Proof.
  induction cs as [|c cs IH]; intros w w' Hs; cbn [run_calls].
  - unfold ret. intros [= <-]. split; [exact Hs|].
    unfold LocalJsonTasks.refresh, LocalJsonTasks._read. unfold_monad.
    unfold in_sync in Hs. rewrite Hs. destruct w; reflexivity.
  - unfold bind at 1.
    destruct (run_call c w) as [[e|[]] w1] eqn:E; [discriminate|].
    intros Hrest. apply (IH w1 w'); [|exact Hrest].
    exact (LocalSyncFacts.run_call_sync c w w1 Hs E).
Qed.

Lemma local_calls_keep_document_in_sync_witness :
  let cs := [CallEnsure "A"; CallStartTimer "A" 100%float; CallToggle "u";
             CallStopTimer 160%float; CallDelete "u"] in
  in_sync local_idle /\
  run_calls cs local_idle = (inr tt, (run_calls cs local_idle).2) /\
  in_sync (run_calls cs local_idle).2 /\
  LocalJsonTasks.refresh (run_calls cs local_idle).2 =
    (inr tt, (run_calls cs local_idle).2).
Proof.
  cbv zeta.
  assert (Hs : in_sync local_idle) by reflexivity.
  assert (Hr : run_calls [CallEnsure "A"; CallStartTimer "A" 100%float; CallToggle "u";
                          CallStopTimer 160%float; CallDelete "u"] local_idle =
               (inr tt, (run_calls [CallEnsure "A"; CallStartTimer "A" 100%float;
                                    CallToggle "u"; CallStopTimer 160%float;
                                    CallDelete "u"] local_idle).2))
    by (vm_compute; reflexivity).
  split; [exact Hs|]. split; [exact Hr|].
  exact (local_calls_keep_document_in_sync _ local_idle _ Hs Hr).
Defined.

(** X8: when the store has no open task and the write of the document
    fails, local [ensure] raises [OSError] with the new task already in the
    cache and not on disk; calling [ensure] again returns that task without
    writing anything, and a [refresh] drops it. *)
Theorem local_ensure_failed_write :
  forall (w : LocalJsonBackend.t) (T : string),
    LocalJsonBackend.list_open w = [] ->
    next_write_fails (LocalJsonBackend.disk w) = true ->
    exists nt w1,
      LocalJsonBackend.ensure T w = (inl OSError, w1) /\
      Task.title nt = T /\ Task.done nt = false /\
      LocalJsonBackend._cache w1 = LocalJsonBackend._cache w ++ [nt] /\
      tasks_json (LocalJsonBackend.disk w1) = tasks_json (LocalJsonBackend.disk w) /\
      LocalJsonBackend.ensure T w1 = (inr nt, w1) /\
      LocalJsonBackend._cache (LocalJsonTasks.refresh w1).2 =
        tasks_json (LocalJsonBackend.disk w).
Proof.
  intros [c a ti st d u n h] T. unfold LocalJsonBackend.list_open. cbn.
  intros Hopen Hw.
  pose proof (find_open_no_open T c Hopen) as Hnone.
  set (nt := Task.mk (u n) T false None).
  assert (Hsome : find_open T (c ++ [nt]) = Some nt)
    by (apply find_open_snoc; auto).
  exists nt. eexists.
  unfold LocalJsonBackend.ensure, LocalJsonBackend._save, LocalJsonBackend._write,
    write_tasks_json, LocalJsonTasks.refresh, LocalJsonTasks._read.
  unfold_monad. cbn.
  rewrite Hnone. cbn. rewrite Hw. cbn. fold nt.
  split; [reflexivity|]. cbn. rewrite Hsome.
  repeat split; reflexivity.
Qed.

Lemma local_ensure_failed_write_witness :
  let w := LocalJsonBackend.mk [] false "" 0%float (mkDisk [] None [true])
             (fun _ => "u") 0 [] in
  exists nt w1,
    LocalJsonBackend.ensure "A" w = (inl OSError, w1) /\
    Task.title nt = "A" /\ Task.done nt = false /\
    LocalJsonBackend._cache w1 = LocalJsonBackend._cache w ++ [nt] /\
    tasks_json (LocalJsonBackend.disk w1) = tasks_json (LocalJsonBackend.disk w) /\
    LocalJsonBackend.ensure "A" w1 = (inr nt, w1) /\
    LocalJsonBackend._cache (LocalJsonTasks.refresh w1).2 =
      tasks_json (LocalJsonBackend.disk w).
Proof.
  cbv zeta.
  apply (local_ensure_failed_write
           (LocalJsonBackend.mk [] false "" 0%float (mkDisk [] None [true])
              (fun _ => "u") 0 []) "A"); reflexivity.
Defined.

Module LocalDeleteFacts.

(** With distinct ids, nothing after the first task with an id has it. *)
Lemma unique_id_rest (task_id : string) (pre post : list Task.t) (x : Task.t) :
  NoDup (map Task.id (pre ++ x :: post)) -> Task.id x = task_id ->
  Forall (fun y => Task.id y <> task_id) pre /\
  Forall (fun y => Task.id y <> task_id) post.
Proof.
  intros Hnd Hx. rewrite map_app in Hnd. cbn in Hnd.
  apply NoDup_app in Hnd as (_ & Hdis & Hnd).
  apply NoDup_cons in Hnd as [Hnot _].
  split; apply Forall_forall; intros y Hy Heq.
  - apply (Hdis (Task.id y)).
    + apply list_elem_of_fmap. exists y. auto.
    + rewrite Heq, <- Hx. left.
  - apply Hnot. rewrite Hx, <- Heq. apply list_elem_of_fmap. exists y. auto.
Qed.

End LocalDeleteFacts.

(** X9: on a local store whose task ids are distinct, toggling a task and
    then deleting the task that [toggle] returned leaves no task with that
    id, whatever its [done] flag was, when both writes succeed. *)
Theorem local_delete_after_toggle :
  forall (w : LocalJsonBackend.t) (pre post : list Task.t) (x : Task.t),
    LocalJsonBackend._cache w = pre ++ x :: post ->
    NoDup (map Task.id (LocalJsonBackend._cache w)) ->
    write_outcome 0 (LocalJsonBackend.disk w) = false ->
    write_outcome 1 (LocalJsonBackend.disk w) = false ->
    exists y w1 w2,
      LocalJsonTasks.toggle (Task.id x) w = (inr (Some y), w1) /\
      LocalJsonTasks.delete (Task.id y) w1 = (inr (Some y), w2) /\
      LocalJsonBackend._cache w2 = pre ++ post /\
      Forall (fun z => Task.id z <> Task.id x) (LocalJsonBackend._cache w2).
Proof.
  intros w pre post x Hc Hnd H0 H1.
  rewrite Hc in Hnd.
  destruct (LocalDeleteFacts.unique_id_rest (Task.id x) pre post x Hnd eq_refl)
    as [Hpre Hpost].
  exists (LocalJsonTasks.flipped x).
  rewrite LocalTaskFacts.toggle_run, Hc.
  rewrite (LocalTaskFacts.toggle_loop_first (Task.id x) pre post x Hpre eq_refl).
  unfold write_result, after_write.
  rewrite LocalSyncFacts.next_write_is_outcome_0, H0.
  eexists. eexists. split; [reflexivity|].
  change (Task.id (LocalJsonTasks.flipped x)) with (Task.id x).
  rewrite LocalTaskFacts.delete_run.
  cbn [LocalJsonBackend._cache LocalJsonBackend.with_disk LocalJsonBackend.with_cache
       LocalJsonBackend.disk].
  rewrite (LocalTaskFacts.delete_loop_first (Task.id x) pre post (LocalJsonTasks.flipped x) Hpre)
    by reflexivity.
  unfold write_result, after_write.
  assert (Hn : next_write_fails
                 (mkDisk (pre ++ LocalJsonTasks.flipped x :: post)
                    (timer_state_json (LocalJsonBackend.disk w))
                    (tail (write_fails (LocalJsonBackend.disk w)))) = false).
  { unfold next_write_fails, write_outcome in *. cbn.
    destruct (write_fails (LocalJsonBackend.disk w)) as [|b [|b' l]]; cbn in *; auto. }
  cbn [fst snd]. rewrite Hn.
  split; [reflexivity|]. cbn. split; [reflexivity|].
  apply Forall_app. split; assumption.
Qed.

Lemma local_delete_after_toggle_witness :
  let a := Task.mk "1" "Buy milk" false None in
  let b := Task.mk "2" "Write report" true None in
  let w := LocalJsonBackend.with_cache [a; b] local_idle in
  exists y w1 w2,
    LocalJsonTasks.toggle (Task.id b) w = (inr (Some y), w1) /\
    LocalJsonTasks.delete (Task.id y) w1 = (inr (Some y), w2) /\
    LocalJsonBackend._cache w2 = [a] ++ [] /\
    Forall (fun z => Task.id z <> Task.id b) (LocalJsonBackend._cache w2).
Proof.
  cbv zeta.
  apply (local_delete_after_toggle
           (LocalJsonBackend.with_cache
              [Task.mk "1" "Buy milk" false None; Task.mk "2" "Write report" true None]
              local_idle)
           [Task.mk "1" "Buy milk" false None] []
           (Task.mk "2" "Write report" true None)).
  - reflexivity.
  - apply (bool_decide_unpack _). vm_compute. exact I.
  - reflexivity.
  - reflexivity.
Defined.

(** Without distinct ids the same two calls leave the other task with the
    id in place. *)
Example local_delete_after_toggle_duplicate_id :
  let a := Task.mk "2" "Buy milk" false None in
  let b := Task.mk "2" "Write report" true None in
  let w := LocalJsonBackend.with_cache [a; b] local_idle in
  LocalJsonBackend._cache
    (LocalJsonTasks.delete "2" (LocalJsonTasks.toggle "2" w).2).2 = [b].
Proof. vm_compute. reflexivity. Qed.

(** X10: local [toggle] moves exactly one task from one pane to the
    other: toggling an open task makes [list_open] one shorter and
    [list_done] one longer, with the flipped task in [list_done], and the
    other way round for a done task; this holds whether or not the write
    succeeds. *)
Theorem local_toggle_moves_between_panes :
  forall (w : LocalJsonBackend.t) (task_id : string) (pre post : list Task.t) (x : Task.t),
    LocalJsonBackend._cache w = pre ++ x :: post ->
    Forall (fun y => Task.id y <> task_id) pre ->
    Task.id x = task_id ->
    let w' := (LocalJsonTasks.toggle task_id w).2 in
    if Task.done x
    then length (LocalJsonBackend.list_open w') = S (length (LocalJsonBackend.list_open w)) /\
         S (length (LocalJsonBackend.list_done w')) = length (LocalJsonBackend.list_done w) /\
         In (LocalJsonTasks.flipped x) (LocalJsonBackend.list_open w')
    else length (LocalJsonBackend.list_done w') = S (length (LocalJsonBackend.list_done w)) /\
         S (length (LocalJsonBackend.list_open w')) = length (LocalJsonBackend.list_open w) /\
         In (LocalJsonTasks.flipped x) (LocalJsonBackend.list_done w').
Proof.
  intros w task_id pre post x Hc Hpre Hx. cbv zeta.
  rewrite LocalTaskFacts.toggle_run, Hc.
  rewrite (LocalTaskFacts.toggle_loop_first task_id pre post x Hpre Hx).
  unfold LocalJsonBackend.list_open, LocalJsonBackend.list_done.
  cbn [snd LocalJsonBackend._cache LocalJsonBackend.with_disk LocalJsonBackend.with_cache].
  rewrite Hc. rewrite !List.filter_app. cbn [List.filter].
  assert (Hf : Task.done (LocalJsonTasks.flipped x) = negb (Task.done x)) by reflexivity.
  rewrite !Hf. clear Hf.
  destruct (Task.done x); cbn [negb]; rewrite !length_app; cbn [length];
    (split; [lia|]); (split; [lia|]);
    apply in_or_app; right; left; reflexivity.
Qed.

Lemma local_toggle_moves_between_panes_witness :
  let a := Task.mk "1" "Buy milk" false None in
  let b := Task.mk "2" "Write report" false None in
  let w := LocalJsonBackend.with_cache [a; b] local_idle in
  let w' := (LocalJsonTasks.toggle "2" w).2 in
  length (LocalJsonBackend.list_done w') = S (length (LocalJsonBackend.list_done w)) /\
  S (length (LocalJsonBackend.list_open w')) = length (LocalJsonBackend.list_open w) /\
  In (LocalJsonTasks.flipped b) (LocalJsonBackend.list_done w').
Proof.
  cbv zeta.
  apply (local_toggle_moves_between_panes
           (LocalJsonBackend.with_cache
              [Task.mk "1" "Buy milk" false None; Task.mk "2" "Write report" false None]
              local_idle)
           "2" [Task.mk "1" "Buy milk" false None] []
           (Task.mk "2" "Write report" false None)).
  - reflexivity.
  - repeat constructor. cbn. discriminate.
  - reflexivity.
Defined.

(** ** Composite ids *)

Lemma drop_chars_append (n post : string) :
  drop_chars (String.length n) (n +:+ post) = post.
Proof. induction n as [|c n IH]; cbn; [destruct post; reflexivity | exact IH]. Qed.

Lemma split_once_unfold (sep s : string) :
  split_once sep s =
  if String.prefix sep s
  then Some (EmptyString, drop_chars (String.length sep) s)
  else match s with
       | EmptyString => None
       | String c s' =>
           match split_once sep s' with
           | Some (before, after) => Some (String c before, after)
           | None => None
           end
       end.
Proof. destruct s; reflexivity. Qed.

Lemma prefix_drop (sep s : string) :
  String.prefix sep s = true -> s = sep +:+ drop_chars (String.length sep) s.
Proof.
  intros Hp. apply prefix_spec in Hp as [post ->].
  rewrite drop_chars_append. reflexivity.
Qed.

(** What [split_once] returns is a split of the string around [sep]. *)
Lemma split_once_some (sep s before after : string) :
  split_once sep s = Some (before, after) -> s = before +:+ sep +:+ after.
Proof.
  revert before. induction s as [|c s IH]; intros before; rewrite split_once_unfold.
  - destruct (String.prefix sep EmptyString) eqn:Hp; [|discriminate].
    intros [= <- <-]. exact (prefix_drop _ _ Hp).
  - destruct (String.prefix sep (String c s)) eqn:Hp.
    + intros [= <- <-]. exact (prefix_drop _ _ Hp).
    + destruct (split_once sep s) as [[b a]|]; [|discriminate].
      intros [= <- <-]. cbn. rewrite (IH b eq_refl). reflexivity.
Qed.

(** [split_once] finds nothing exactly when [sep] does not occur. *)
Lemma split_once_none (sep s : string) :
  split_once sep s = None <-> str_in sep s = false.
Proof.
  induction s as [|c s IH]; rewrite split_once_unfold.
  - change (str_in sep EmptyString) with (String.prefix sep EmptyString || false).
    destruct (String.prefix sep EmptyString); cbn; split; congruence.
  - change (str_in sep (String c s)) with (String.prefix sep (String c s) || str_in sep s).
    destruct (String.prefix sep (String c s)); cbn; [split; congruence|].
    rewrite <- IH. destruct (split_once sep s) as [[b a]|]; split; congruence.
Qed.

#[local] Arguments ascii_dec : simpl never.

Lemma prefix_colons_extend (c : ascii) (a t : string) :
  String.prefix "::" (String c (a +:+ ":")) = false ->
  String.prefix "::" (String c (a +:+ "::" +:+ t)) = false.
Proof.
  cbn. destruct (ascii_dec ":" c); [|reflexivity].
  destruct a as [|d a]; cbn.
  - auto.
  - destruct (ascii_dec ":" d); [|reflexivity]. destruct a; cbn; discriminate.
Qed.

(** X11: a composite id built as [list_id::task_id] splits back into its
    two parts, provided no "::" starts inside [list_id] (that is, "::"
    does not occur in [list_id] followed by one colon). *)
Theorem split_gid_roundtrip :
  forall (list_id task_id : string),
    str_in "::" (list_id +:+ ":") = false ->
    _split_gid (list_id +:+ "::" +:+ task_id) = inr (list_id, task_id).
Proof.
  intros list_id task_id. unfold _split_gid.
  induction list_id as [|c a IH]; intros Hno.
  - change (EmptyString +:+ "::" +:+ task_id) with ("::" +:+ task_id).
    rewrite split_once_unfold.
    assert (Hp : String.prefix "::" ("::" +:+ task_id) = true)
      by (apply prefix_spec; exists task_id; reflexivity).
    rewrite Hp, drop_chars_append. reflexivity.
  - change (str_in "::" (String c a +:+ ":"))
      with (String.prefix "::" (String c (a +:+ ":")) || str_in "::" (a +:+ ":")) in Hno.
    apply orb_false_iff in Hno as [Hp Hrest].
    change (String c a +:+ "::" +:+ task_id) with (String c (a +:+ "::" +:+ task_id)).
    rewrite split_once_unfold.
    rewrite (prefix_colons_extend c a task_id Hp).
    specialize (IH Hrest).
    destruct (split_once "::" (a +:+ "::" +:+ task_id)) as [[b t]|]; [|discriminate].
    injection IH as -> ->. reflexivity.
Qed.

Lemma split_gid_roundtrip_witness :
  str_in "::" ("MTIzNDU2" +:+ ":") = false /\
  _split_gid ("MTIzNDU2" +:+ "::" +:+ "abc:def") = inr ("MTIzNDU2", "abc:def").
Proof.
  split; [reflexivity|].
  apply (split_gid_roundtrip "MTIzNDU2" "abc:def"). reflexivity.
Defined.

(** A list id that ends in a colon does not survive the round trip. *)
Example split_gid_colon_in_list_id :
  _split_gid ("a:" +:+ "::" +:+ "b") = inr ("a", ":b").
Proof. reflexivity. Qed.

(** X12: whenever [_split_gid] returns a pair, the id is the first part,
    then "::", then the second part, and the first part holds the text
    before the first "::" of the id. *)
Theorem split_gid_parts :
  forall (gid list_id task_id : string),
    _split_gid gid = inr (list_id, task_id) ->
    gid = list_id +:+ "::" +:+ task_id /\ str_in "::" (list_id +:+ ":") = false.
Proof.
  intros gid list_id task_id. unfold _split_gid.
  destruct (split_once "::" gid) as [[b a]|] eqn:E; [|discriminate].
  intros [= <- <-]. split; [exact (split_once_some _ _ _ _ E)|].
  revert b E. induction gid as [|c s IH]; intros b; rewrite split_once_unfold.
  - destruct (String.prefix "::" EmptyString); [|discriminate].
    intros [= <- _]. reflexivity.
  - destruct (String.prefix "::" (String c s)) eqn:Hp.
    + intros [= <- _]. reflexivity.
    + destruct (split_once "::" s) as [[b' a']|] eqn:E'; [|discriminate].
      intros [= <- <-]. specialize (IH b' eq_refl).
      change (str_in "::" (String c b' +:+ ":"))
        with (String.prefix "::" (String c (b' +:+ ":")) || str_in "::" (b' +:+ ":")).
      rewrite IH, orb_false_r.
      pose proof (split_once_some _ _ _ _ E') as Hs. subst s.
      revert Hp. cbn. destruct (ascii_dec ":" c); [|reflexivity].
      destruct b' as [|d b']; cbn.
      * auto.
      * destruct (ascii_dec ":" d); [|reflexivity]. destruct b'; cbn; discriminate.
Qed.

Lemma split_gid_parts_witness :
  _split_gid "L1::t1::x" = inr ("L1", "t1::x") /\
  "L1::t1::x" = "L1" +:+ "::" +:+ "t1::x" /\ str_in "::" ("L1" +:+ ":") = false.
Proof.
  split; [reflexivity|].
  apply (split_gid_parts "L1::t1::x" "L1" "t1::x"). reflexivity.
Defined.

(** X13: [_split_gid] raises [ValueError] exactly on the ids in which
    "::" does not occur. *)
Theorem split_gid_error :
  forall (gid : string),
    _split_gid gid = inl (ValueError "not enough values to unpack (expected 2, got 1)")
    <-> str_in "::" gid = false.
Proof.
  intros gid. rewrite <- split_once_none. unfold _split_gid.
  destruct (split_once "::" gid) as [[b a]|]; split; congruence.
Qed.

(** ** Toggling and deleting on the remote backend *)

Module GoogleTaskFacts.
Import GoogleBackend GoogleTasks.

Section Facts.
Context {R : Type} `{GoogleApi R} `{GoogleTasksApi R}.

Lemma set_done_loop_first (task_id : string) (d : bool) (pre post : list Task.t) (x : Task.t) :
  Forall (fun y => Task.id y <> task_id) pre -> Task.id x = task_id ->
  set_done_loop task_id d (pre ++ x :: post) = Some (with_done d x, pre ++ with_done d x :: post).
Proof.
  intros Hpre Hx. induction Hpre as [|y pre Hy _ IH]; cbn.
  - rewrite bool_decide_eq_true_2 by exact Hx. reflexivity.
  - rewrite bool_decide_eq_false_2 by exact Hy. rewrite IH. reflexivity.
Qed.

(** Whatever [toggle] does, the index stays, and the cache stays too
    when it raises. *)
Lemma toggle_frame (task_id : string) (w w' : t R) (res : exn + option Task.t) :
  toggle task_id w = (res, w') ->
  _id_index w' = _id_index w /\
  (forall e, res = inl e -> _cache w' = _cache w).
Proof.
  destruct w as [c ix pf cn a ti st d r h].
  unfold toggle, call. unfold_monad. cbn.
  destruct (ix !! task_id) as [[lid tid]|]; cbn.
  2: { intros [= <- <-]. split; [reflexivity | intros; reflexivity]. }
  destruct (_tasks_service r) as [[e|[]] r1]; cbn.
  { intros [= <- <-]. split; [reflexivity | intros; reflexivity]. }
  destruct (tasks_get lid tid r1) as [[e|cur] r2]; cbn.
  { intros [= <- <-]. split; [reflexivity | intros; reflexivity]. }
  destruct (now_isoformat r2) as [[e|iso] r3]; cbn.
  { intros [= <- <-]. split; [reflexivity | intros; reflexivity]. }
  destruct (tasks_patch lid tid (patch_body cur iso) r3) as [[e|upd] r4]; cbn.
  { intros [= <- <-]. split; [reflexivity | intros; reflexivity]. }
  destruct (set_done_loop task_id (bool_decide (upd = Some "completed")) c)
    as [[y c']|]; cbn; intros [= <- <-];
    (split; [reflexivity | intros e; discriminate]).
Qed.

(** When [delete] raises, the cache and the index are as before. *)
Lemma delete_raises_frame (task_id : string) (w w' : t R) (e : exn) :
  delete task_id w = (inl e, w') ->
  _id_index w' = _id_index w /\ _cache w' = _cache w.
Proof.
  destruct w as [c ix pf cn a ti st d r h].
  unfold delete, call. unfold_monad. cbn.
  destruct (ix !! task_id) as [[lid tid]|]; cbn; [|discriminate].
  destruct (_tasks_service r) as [[e1|[]] r1]; cbn.
  { intros [= _ <-]. split; reflexivity. }
  destruct (tasks_delete lid tid r1) as [[e2|[]] r2]; cbn.
  { intros [= _ <-]. split; reflexivity. }
  destruct (fold_left (LocalJsonTasks.delete_step task_id) c (None, []))
    as [removed new_list]; cbn.
  discriminate.
Qed.

End Facts.
End GoogleTaskFacts.

(** X14: on the remote backend [toggle] and [delete] of an id that is not
    in the id index return [None] without any call to the Google services
    and without changing the store, even when a cached task carries that
    id. *)
Theorem google_unknown_id_is_ignored :
  forall R (api : GoogleApi R) (tapi : GoogleTasksApi R)
         (w : GoogleBackend.t R) (task_id : string),
    GoogleBackend._id_index w !! task_id = None ->
    GoogleTasks.toggle task_id w = (inr None, w) /\
    GoogleTasks.delete task_id w = (inr None, w).
Proof.
  intros R api tapi w task_id Hix.
  unfold GoogleTasks.toggle, GoogleTasks.delete. unfold_monad.
  rewrite Hix. split; reflexivity.
Qed.

Lemma google_unknown_id_is_ignored_witness :
  let w := GoogleBackend.with_cache [Task.mk "L1::t9" "Orphan" false None]
             (google_idle fake_online) in
  GoogleBackend._id_index w !! "L1::t9" = None /\
  GoogleTasks.toggle "L1::t9" w = (inr None, w) /\
  GoogleTasks.delete "L1::t9" w = (inr None, w).
Proof.
  cbv zeta. split; [reflexivity|].
  apply (google_unknown_id_is_ignored FakeGoogle FakeGoogle_Api FakeGoogle_TasksApi).
  reflexivity.
Defined.

(** X15: when [toggle] or [delete] raises on the remote backend (a call to
    the Google services failed), the cache and the id index are exactly as
    before the call. *)
Theorem google_failed_call_keeps_local_view :
  forall R (api : GoogleApi R) (tapi : GoogleTasksApi R)
         (w w' : GoogleBackend.t R) (task_id : string) (e : exn),
    GoogleTasks.toggle task_id w = (inl e, w') \/
    GoogleTasks.delete task_id w = (inl e, w') ->
    GoogleBackend._cache w' = GoogleBackend._cache w /\
    GoogleBackend._id_index w' = GoogleBackend._id_index w.
Proof.
  intros R api tapi w w' task_id e [Ht | Hd].
  - destruct (GoogleTaskFacts.toggle_frame task_id w w' _ Ht) as [Hix Hc].
    split; [exact (Hc e eq_refl) | exact Hix].
  - destruct (GoogleTaskFacts.delete_raises_frame task_id w w' e Hd) as [Hix Hc].
    split; assumption.
Qed.

Lemma google_failed_call_keeps_local_view_witness :
  let x := Task.mk "L1::t1" "A" false None in
  let w := GoogleBackend.mk [x] {["L1::t1" := ("L1", "t1")]} None "taskanov"
             false "" 0%float (mkDisk [] None []) fake_offline [] in
  GoogleTasks.delete "L1::t1" w = (inl (RemoteError "unreachable"), w) /\
  GoogleBackend._cache w = GoogleBackend._cache w /\
  GoogleBackend._id_index w = GoogleBackend._id_index w.
Proof.
  cbv zeta.
  assert (Hd : GoogleTasks.delete "L1::t1"
                 (GoogleBackend.mk [Task.mk "L1::t1" "A" false None]
                    {["L1::t1" := ("L1", "t1")]} None "taskanov"
                    false "" 0%float (mkDisk [] None []) fake_offline []) =
               (inl (RemoteError "unreachable"),
                GoogleBackend.mk [Task.mk "L1::t1" "A" false None]
                    {["L1::t1" := ("L1", "t1")]} None "taskanov"
                    false "" 0%float (mkDisk [] None []) fake_offline []))
    by (vm_compute; reflexivity).
  split; [exact Hd|].
  exact (google_failed_call_keeps_local_view FakeGoogle FakeGoogle_Api FakeGoogle_TasksApi
           _ _ "L1::t1" _ (or_intror Hd)).
Defined.

(** X16: when the id is in the index and the Google services accept the
    deletion, remote [delete] returns the first cached task with that id,
    removes it from the cache keeping the rest in order, and drops the id
    from the index; a second [delete] of the same id then returns [None]
    and changes nothing. *)
Theorem google_delete_success :
  forall R (api : GoogleApi R) (tapi : GoogleTasksApi R)
         (w : GoogleBackend.t R) (task_id list_id tid : string)
         (pre post : list Task.t) (x : Task.t) (r1 r2 : R),
    GoogleBackend._id_index w !! task_id = Some (list_id, tid) ->
    GoogleBackend._cache w = pre ++ x :: post ->
    Forall (fun y => Task.id y <> task_id) pre ->
    Task.id x = task_id ->
    _tasks_service (GoogleBackend.remote w) = (inr tt, r1) ->
    tasks_delete list_id tid r1 = (inr tt, r2) ->
    exists w',
      GoogleTasks.delete task_id w = (inr (Some x), w') /\
      GoogleBackend._cache w' = pre ++ post /\
      GoogleBackend._id_index w' = base.delete task_id (GoogleBackend._id_index w) /\
      GoogleBackend.remote w' = r2 /\
      GoogleTasks.delete task_id w' = (inr None, w').
Proof.
  intros R api tapi [c ix pf cn a ti st d r h] task_id list_id tid pre post x r1 r2.
  cbn. intros Hix Hc Hpre Hx Hs Hd. subst c.
  unfold GoogleTasks.delete, GoogleBackend.call. unfold_monad. cbn.
  rewrite Hix. cbn. rewrite Hs. cbn. rewrite Hd. cbn.
  change (fold_left (LocalJsonTasks.delete_step task_id) (pre ++ x :: post) (None, []))
    with (LocalJsonTasks.delete_loop task_id (pre ++ x :: post)).
  rewrite (LocalTaskFacts.delete_loop_first task_id pre post x Hpre Hx). cbn.
  eexists. split; [reflexivity|]. cbn.
  rewrite lookup_delete_eq. repeat split; reflexivity.
Qed.

Lemma google_delete_success_witness :
  let x := Task.mk "L1::t1" "A" false None in
  let w := GoogleBackend.mk [x] {["L1::t1" := ("L1", "t1")]} None "taskanov"
             false "" 0%float (mkDisk [] None []) fake_online [] in
  exists w',
    GoogleTasks.delete "L1::t1" w = (inr (Some x), w') /\
    GoogleBackend._cache w' = [] ++ [] /\
    GoogleBackend._id_index w' = base.delete "L1::t1" (GoogleBackend._id_index w) /\
    GoogleBackend.remote w' = fake_online /\
    GoogleTasks.delete "L1::t1" w' = (inr None, w').
Proof.
  cbv zeta.
  apply (google_delete_success FakeGoogle FakeGoogle_Api FakeGoogle_TasksApi
           (GoogleBackend.mk [Task.mk "L1::t1" "A" false None]
              {["L1::t1" := ("L1", "t1")]} None "taskanov"
              false "" 0%float (mkDisk [] None []) fake_online [])
           "L1::t1" "L1" "t1" [] [] (Task.mk "L1::t1" "A" false None)
           fake_online fake_online).
  - reflexivity.
  - reflexivity.
  - constructor.
  - reflexivity.
  - reflexivity.
  - reflexivity.
Defined.

(** X17: when the id is in the index and the Google services answer,
    remote [toggle] sends the patch chosen from the status the server
    reports and sets [done] of the first cached task with that id to
    whether the server's answer says "completed"; the flag the cache held
    before plays no part, the other tasks, the order and the index stay. *)
Theorem google_toggle_follows_server :
  forall R (api : GoogleApi R) (tapi : GoogleTasksApi R)
         (w : GoogleBackend.t R) (task_id list_id tid : string)
         (pre post : list Task.t) (x : Task.t)
         (cur updated : option string) (now_iso : string) (r1 r2 r3 r4 : R),
    GoogleBackend._id_index w !! task_id = Some (list_id, tid) ->
    GoogleBackend._cache w = pre ++ x :: post ->
    Forall (fun y => Task.id y <> task_id) pre ->
    Task.id x = task_id ->
    _tasks_service (GoogleBackend.remote w) = (inr tt, r1) ->
    tasks_get list_id tid r1 = (inr cur, r2) ->
    now_isoformat r2 = (inr now_iso, r3) ->
    tasks_patch list_id tid (GoogleTasks.patch_body cur now_iso) r3 = (inr updated, r4) ->
    let x' := GoogleTasks.with_done (bool_decide (updated = Some "completed")) x in
    exists w',
      GoogleTasks.toggle task_id w = (inr (Some x'), w') /\
      GoogleBackend._cache w' = pre ++ x' :: post /\
      GoogleBackend._id_index w' = GoogleBackend._id_index w /\
      GoogleBackend.remote w' = r4.
Proof.
  intros R api tapi [c ix pf cn a ti st d r h] task_id list_id tid pre post x
         cur updated now_iso r1 r2 r3 r4.
  cbn. intros Hix Hc Hpre Hx Hs Hg Hn Hp. subst c.
  unfold GoogleTasks.toggle, GoogleBackend.call. unfold_monad. cbn.
  rewrite Hix. cbn. rewrite Hs. cbn. rewrite Hg. cbn. rewrite Hn. cbn.
  rewrite Hp. cbn.
  rewrite (GoogleTaskFacts.set_done_loop_first task_id _ pre post x Hpre Hx). cbn.
  eexists. repeat split; reflexivity.
Qed.

Lemma google_toggle_follows_server_witness :
  let x := Task.mk "L1::t1" "A" true None in
  let w := GoogleBackend.mk [x] {["L1::t1" := ("L1", "t1")]} None "taskanov"
             false "" 0%float (mkDisk [] None []) fake_online [] in
  let x' := GoogleTasks.with_done (bool_decide (Some "completed" = Some "completed")) x in
  exists w',
    GoogleTasks.toggle "L1::t1" w = (inr (Some x'), w') /\
    GoogleBackend._cache w' = [] ++ x' :: [] /\
    GoogleBackend._id_index w' = GoogleBackend._id_index w /\
    GoogleBackend.remote w' = fake_online.
Proof.
  cbv zeta.
  apply (google_toggle_follows_server FakeGoogle FakeGoogle_Api FakeGoogle_TasksApi
           (GoogleBackend.mk [Task.mk "L1::t1" "A" true None]
              {["L1::t1" := ("L1", "t1")]} None "taskanov"
              false "" 0%float (mkDisk [] None []) fake_online [])
           "L1::t1" "L1" "t1" [] [] (Task.mk "L1::t1" "A" true None)
           None (Some "completed") "2026-01-01T00:00:00+01:00"
           fake_online fake_online fake_online fake_online).
  - reflexivity.
  - reflexivity.
  - constructor.
  - reflexivity.
  - reflexivity.
  - reflexivity.
  - reflexivity.
  - reflexivity.
Defined.



(** ** What stopping the timer records *)

Module GoogleStopFacts.
Import GoogleBackend.

Section Facts.
Context {R : Type} `{GoogleApi R}.

(** The remote side after [stop_timer] is the remote side after its one
    recording attempt, or the one before when none is made. *)
Lemma stop_timer_remote (w : t R) (ended_ts : float) :
  remote (stop_timer ended_ts w).2 =
  if _timer_active w && (0 <? _timer_started w)%float
  then (_write_time_slot (_timer_started w) ended_ts (slot_summary (_timer_title w))
          "Logged via taskanov" (_calendar_name w) (remote w)).2
  else remote w.
Proof.
  destruct w as [c ix pf cn a ti st d r h].
  unfold stop_timer, call, slot_summary, py_float. unfold_monad. cbn.
  destruct (a && (0 <? st)%float); cbn.
  - destruct (_write_time_slot st ended_ts _ _ cn r) as [[e|[]] r']; cbn;
      rewrite GoogleTimerFacts.google_save_timer_run; cbn;
      destruct (next_write_fails d); reflexivity.
  - rewrite GoogleTimerFacts.google_save_timer_run; cbn.
    destruct (next_write_fails d); reflexivity.
Qed.

Lemma timer_frame (w : t R) (title : string) (ts : float) :
  (_cache (start_timer title ts w).2 = _cache w /\
   _id_index (start_timer title ts w).2 = _id_index w) /\
  (_cache (stop_timer ts w).2 = _cache w /\
   _id_index (stop_timer ts w).2 = _id_index w).
Proof.
  destruct w as [c ix pf cn a ti st d r h]. split.
  - unfold start_timer. unfold_monad. cbn.
    destruct (a && negb (bool_decide (ti = title))); cbn;
      repeat (rewrite GoogleTimerFacts.google_save_timer_run; cbn;
              match goal with
              | |- context [next_write_fails ?d] => destruct (next_write_fails d)
              end; cbn);
      split; reflexivity.
  - unfold stop_timer, call. unfold_monad. cbn.
    destruct (a && (0 <? st)%float); cbn.
    + destruct (_write_time_slot _ _ _ _ _ r) as [[e|[]] r']; cbn;
        rewrite GoogleTimerFacts.google_save_timer_run; cbn;
        destruct (next_write_fails d); split; reflexivity.
    + rewrite GoogleTimerFacts.google_save_timer_run; cbn.
      destruct (next_write_fails d); split; reflexivity.
Qed.

End Facts.
End GoogleStopFacts.

(** X19: remote [stop_timer] makes exactly one recording attempt, and only
    when a timer is active with a start time above zero: the Google side
    is then left as [_write_time_slot] leaves it, called with the stored
    start, the given end, the timer's title (or "taskanov: work" when the
    title is empty) and the backend's calendar name, whether or not that
    call raised; otherwise the Google side is untouched. *)
Theorem google_stop_timer_recording :
  forall R (api : GoogleApi R) (w : GoogleBackend.t R) (ended_ts : float),
    GoogleBackend.remote (GoogleBackend.stop_timer ended_ts w).2 =
    if GoogleBackend._timer_active w && (0 <? GoogleBackend._timer_started w)%float
    then (_write_time_slot (GoogleBackend._timer_started w) ended_ts
            (slot_summary (GoogleBackend._timer_title w))
            "Logged via taskanov" (GoogleBackend._calendar_name w)
            (GoogleBackend.remote w)).2
    else GoogleBackend.remote w.
Proof. intros R api w ended_ts. apply GoogleStopFacts.stop_timer_remote. Qed.

(** X20: stopping an active timer on the remote backend with an end time
    that is not after its start returns normally with the timer cleared
    and the Google side untouched: the interval is dropped without any
    error reaching the caller. *)
Theorem google_stop_timer_drops_backward_interval :
  forall R (api : GoogleApi R) (w : GoogleBackend.t R) (ended_ts : float),
    GoogleBackend._timer_active w = true ->
    (ended_ts <=? GoogleBackend._timer_started w)%float = true ->
    exists w',
      GoogleBackend.stop_timer ended_ts w = (inr tt, w') /\
      GoogleBackend.fields w' = (false, "", 0%float) /\
      GoogleBackend.remote w' = GoogleBackend.remote w.
Proof.
  intros R api w ended_ts Ha Hle.
  destruct (GoogleTimerFacts.google_stop_timer_returns w ended_ts)
    as (w' & new & E & F & _).
  exists w'. split; [exact E|]. split; [exact F|].
  pose proof (GoogleStopFacts.stop_timer_remote w ended_ts) as Hr.
  rewrite E in Hr. cbn [snd] in Hr. rewrite Hr.
  destruct (GoogleBackend._timer_active w && (0 <? GoogleBackend._timer_started w)%float);
    [|reflexivity].
  unfold _write_time_slot. rewrite Hle. reflexivity.
Qed.

Lemma google_stop_timer_drops_backward_interval_witness :
  GoogleBackend._timer_active (google_running_A fake_online) = true /\
  (90 <=? GoogleBackend._timer_started (google_running_A fake_online))%float = true /\
  exists w',
    GoogleBackend.stop_timer 90%float (google_running_A fake_online) = (inr tt, w') /\
    GoogleBackend.fields w' = (false, "", 0%float) /\
    GoogleBackend.remote w' = GoogleBackend.remote (google_running_A fake_online).
Proof.
  split; [reflexivity|]. split; [reflexivity|].
  apply (google_stop_timer_drops_backward_interval FakeGoogle FakeGoogle_Api
           (google_running_A fake_online) 90%float); reflexivity.
Defined.

(** X21: starting and stopping the timer never touch the tasks: on both
    backends the cache is the same before and after, on the local backend
    so is the task document, and on the remote backend so is the id
    index. *)
Theorem timer_calls_leave_tasks_alone :
  (forall (w : LocalJsonBackend.t) title ts,
      LocalJsonBackend._cache (LocalJsonBackend.start_timer title ts w).2 =
        LocalJsonBackend._cache w /\
      tasks_json (LocalJsonBackend.disk (LocalJsonBackend.start_timer title ts w).2) =
        tasks_json (LocalJsonBackend.disk w) /\
      LocalJsonBackend._cache (LocalJsonBackend.stop_timer ts w).2 =
        LocalJsonBackend._cache w /\
      tasks_json (LocalJsonBackend.disk (LocalJsonBackend.stop_timer ts w).2) =
        tasks_json (LocalJsonBackend.disk w)) /\
  (forall R (api : GoogleApi R) (w : GoogleBackend.t R) title ts,
      GoogleBackend._cache (GoogleBackend.start_timer title ts w).2 =
        GoogleBackend._cache w /\
      GoogleBackend._id_index (GoogleBackend.start_timer title ts w).2 =
        GoogleBackend._id_index w /\
      GoogleBackend._cache (GoogleBackend.stop_timer ts w).2 =
        GoogleBackend._cache w /\
      GoogleBackend._id_index (GoogleBackend.stop_timer ts w).2 =
        GoogleBackend._id_index w).
Proof.
  split.
  - intros w title ts.
    destruct (LocalSyncFacts.start_timer_frame w title ts) as [H1 H2].
    destruct (LocalSyncFacts.stop_timer_frame w ts) as [H3 H4].
    auto.
  - intros R api w title ts.
    destruct (GoogleStopFacts.timer_frame w title ts) as [[H1 H2] [H3 H4]].
    auto.
Qed.

(** ** The loop of the notifier *)

Module RunFacts.
Import TickerNotifier.

Lemma local_run_body (w : World LocalJsonBackend.t) :
  _run_body w =
  (inr tt,
   mkWorld (ticked (self w)) (store w)
     (outbox w ++ [mkNotification "taskanov"
                     (tick_message (LocalJsonBackend.fields (store w)))])).
Proof.
  destruct w as [n b o]. destruct b as [c a ti st d u k h].
  unfold _run_body, notify, tick_message. unfold_monad. cbn.
  destruct a; reflexivity.
Qed.

Lemma google_run_body {R : Type} `{GoogleApi R} (w : World (GoogleBackend.t R)) :
  _run_body w =
  (inr tt,
   mkWorld (ticked (self w)) (store w)
     (outbox w ++ [mkNotification "taskanov"
                     (tick_message (GoogleBackend.fields (store w)))])).
Proof.
  destruct w as [n b o]. destruct b as [c ix pf cn a ti st d r h].
  unfold _run_body, notify, tick_message. unfold_monad. cbn.
  destruct a; reflexivity.
Qed.

Lemma ticked_by_0 (t : TickerNotifier.t) : ticked_by 0 t = t.
Proof. destruct t. unfold ticked_by. cbn. rewrite Z.add_0_r. reflexivity. Qed.

Lemma ticked_by_S (n : nat) (t : TickerNotifier.t) :
  ticked_by n (ticked t) = ticked_by (S n) t.
Proof.
  destruct t. unfold ticked_by, ticked. cbn [interval _stop _thr_alive _tick].
  f_equal. lia.
Qed.

End RunFacts.

(** X22: on either backend, running the loop of [_run] over a sequence of
    waits sends one reminder per period that elapsed before the first
    wait that saw the stop event, and none after it; all of them carry the
    message of the store's timer state, the store is left exactly as it
    was, and the tick counter grows by that number. *)
Theorem run_sends_one_reminder_per_period :
  (forall (waits : list bool) (w : TickerNotifier.World LocalJsonBackend.t),
      TickerNotifier._run waits w =
      (inr tt,
       TickerNotifier.mkWorld
         (ticked_by (elapsed_periods waits) (TickerNotifier.self w))
         (TickerNotifier.store w)
         (TickerNotifier.outbox w ++
          replicate (elapsed_periods waits)
            (mkNotification "taskanov"
               (tick_message (LocalJsonBackend.fields (TickerNotifier.store w))))))) /\
  (forall R (api : GoogleApi R) (waits : list bool)
          (w : TickerNotifier.World (GoogleBackend.t R)),
      TickerNotifier._run waits w =
      (inr tt,
       TickerNotifier.mkWorld
         (ticked_by (elapsed_periods waits) (TickerNotifier.self w))
         (TickerNotifier.store w)
         (TickerNotifier.outbox w ++
          replicate (elapsed_periods waits)
            (mkNotification "taskanov"
               (tick_message (GoogleBackend.fields (TickerNotifier.store w))))))).
Proof.
  split.
  - induction waits as [|[] waits IH]; intros w; cbn [TickerNotifier._run elapsed_periods].
    + unfold ret. rewrite RunFacts.ticked_by_0, app_nil_r. destruct w; reflexivity.
    + unfold ret. rewrite RunFacts.ticked_by_0, app_nil_r. destruct w; reflexivity.
    + unfold bind. rewrite RunFacts.local_run_body, IH.
      cbn [TickerNotifier.self TickerNotifier.store TickerNotifier.outbox].
      rewrite RunFacts.ticked_by_S, <- app_assoc. reflexivity.
  - intros R api.
    induction waits as [|[] waits IH]; intros w; cbn [TickerNotifier._run elapsed_periods].
    + unfold ret. rewrite RunFacts.ticked_by_0, app_nil_r. destruct w; reflexivity.
    + unfold ret. rewrite RunFacts.ticked_by_0, app_nil_r. destruct w; reflexivity.
    + unfold bind. rewrite RunFacts.google_run_body, IH.
      cbn [TickerNotifier.self TickerNotifier.store TickerNotifier.outbox].
      rewrite RunFacts.ticked_by_S, <- app_assoc. reflexivity.
Qed.

(** ** Rendering a duration *)

Lemma format_02d_two_digits (x : Z) :
  (0 <= x < 100)%Z -> format_02d x = two_digits x.
Proof.
  intros Hx.
  assert (Hall : forallb (fun k => String.eqb (format_02d (Z.of_nat k))
                                     (two_digits (Z.of_nat k)))
                         (seq 0 100) = true)
    by (vm_compute; reflexivity).
  rewrite forallb_forall in Hall.
  specialize (Hall (Z.to_nat x)).
  rewrite Z2Nat.id in Hall by lia.
  apply String.eqb_eq. apply Hall. apply in_seq. lia.
Qed.

Lemma digit_char_inj (a b : Z) :
  (0 <= a < 10)%Z -> (0 <= b < 10)%Z -> digit_char a = digit_char b -> a = b.
Proof.
  unfold digit_char. intros Ha Hb Heq.
  apply (f_equal nat_of_ascii) in Heq.
  rewrite !nat_ascii_embedding in Heq by lia. lia.
Qed.

Lemma two_digits_inj (x y : Z) :
  (0 <= x < 100)%Z -> (0 <= y < 100)%Z -> two_digits x = two_digits y -> x = y.
Proof.
  unfold two_digits. intros Hx Hy [= Ht Hu].
  apply digit_char_inj in Ht; [|split; [apply Z.div_pos; lia | apply Z.div_lt_upper_bound; lia]..].
  apply digit_char_inj in Hu; [|apply Z.mod_pos_bound; lia..].
  rewrite (Z.div_mod x 10), (Z.div_mod y 10) by lia. lia.
Qed.

Lemma fmt_dur_parts (seconds : Z) :
  (seconds < 360000)%Z ->
  let n := Z.max 0 seconds in
  (0 <= n / 3600 < 100)%Z /\ (0 <= (n mod 3600) / 60 < 60)%Z /\ (0 <= n mod 60 < 60)%Z /\
  n = (3600 * (n / 3600) + 60 * ((n mod 3600) / 60) + n mod 60)%Z.
Proof.
  intros Hs n. assert (Hn : (0 <= n < 360000)%Z) by lia.
  pose proof (Z.mod_pos_bound n 3600 ltac:(lia)) as Hm.
  pose proof (Z.mod_pos_bound n 60 ltac:(lia)) as Hs60.
  pose proof (Z.div_mod n 3600 ltac:(lia)) as Hd.
  pose proof (Z.div_mod (n mod 3600) 60 ltac:(lia)) as Hd2.
  assert (Hmm : ((n mod 3600) mod 60 = n mod 60)%Z).
  { apply Z.mod_mod_divide. exists 60%Z. reflexivity. }
  repeat split.
  - apply Z.div_pos; lia.
  - apply Z.div_lt_upper_bound; lia.
  - apply Z.div_pos; lia.
  - apply Z.div_lt_upper_bound; lia.
  - lia.
  - lia.
  - lia.
Qed.

(** X23: for every number of seconds below 100 hours (negative ones count
    as zero) [_fmt_dur] writes exactly eight characters, two digits of
    hours, a colon, two digits of minutes, a colon and two digits of
    seconds, where minutes and seconds are below 60 and hours, minutes and
    seconds add up to the duration. *)
Theorem fmt_dur_below_100_hours :
  forall (seconds : Z),
    (seconds < 360000)%Z ->
    exists h m s : Z,
      (0 <= h < 100)%Z /\ (0 <= m < 60)%Z /\ (0 <= s < 60)%Z /\
      Z.max 0 seconds = (3600 * h + 60 * m + s)%Z /\
      _fmt_dur seconds = two_digits h +:+ ":" +:+ two_digits m +:+ ":" +:+ two_digits s.
Proof.
  intros seconds Hs.
  destruct (fmt_dur_parts seconds Hs) as (Hh & Hm & Hsec & Hsum).
  exists (Z.max 0 seconds / 3600)%Z, ((Z.max 0 seconds mod 3600) / 60)%Z,
         (Z.max 0 seconds mod 60)%Z.
  split; [exact Hh|]. split; [exact Hm|]. split; [exact Hsec|]. split; [exact Hsum|].
  unfold _fmt_dur. cbv zeta.
  rewrite !format_02d_two_digits by lia. reflexivity.
Qed.

Lemma fmt_dur_below_100_hours_witness :
  (3725 < 360000)%Z /\
  exists h m s : Z,
    (0 <= h < 100)%Z /\ (0 <= m < 60)%Z /\ (0 <= s < 60)%Z /\
    Z.max 0 3725 = (3600 * h + 60 * m + s)%Z /\
    _fmt_dur 3725 = two_digits h +:+ ":" +:+ two_digits m +:+ ":" +:+ two_digits s.
Proof.
  split; [lia|]. apply (fmt_dur_below_100_hours 3725). lia.
Defined.

Lemma clock_fields_eq (h m s h' m' s' : Z) :
  two_digits h +:+ ":" +:+ two_digits m +:+ ":" +:+ two_digits s =
  two_digits h' +:+ ":" +:+ two_digits m' +:+ ":" +:+ two_digits s' ->
  two_digits h = two_digits h' /\ two_digits m = two_digits m' /\
  two_digits s = two_digits s'.
Proof.
  unfold two_digits. cbn [String.append].
  intros [= -> -> -> -> -> ->]. repeat split; reflexivity.
Qed.

(** X24: below 100 hours [_fmt_dur] tells durations apart: two different
    non-negative numbers of seconds are never written the same way. *)
Theorem fmt_dur_injective :
  forall (a b : Z),
    (0 <= a < 360000)%Z -> (0 <= b < 360000)%Z ->
    _fmt_dur a = _fmt_dur b -> a = b.
Proof.
  intros a b Ha Hb.
  destruct (fmt_dur_parts a ltac:(lia)) as (Hha & Hma & Hsa & Hsuma).
  destruct (fmt_dur_parts b ltac:(lia)) as (Hhb & Hmb & Hsb & Hsumb).
  unfold _fmt_dur. cbv zeta.
  rewrite !format_02d_two_digits by lia.
  intros Heq. apply clock_fields_eq in Heq as (Hh & Hm & Hs).
  apply two_digits_inj in Hh; [|lia..].
  apply two_digits_inj in Hm; [|lia..].
  apply two_digits_inj in Hs; [|lia..].
  lia.
Qed.

Lemma fmt_dur_injective_witness :
  (0 <= 59 < 360000)%Z /\ (0 <= 59 < 360000)%Z /\ _fmt_dur 59 = _fmt_dur 59 /\ 59%Z = 59%Z.
Proof.
  split; [lia|]. split; [lia|]. split; [reflexivity|].
  apply (fmt_dur_injective 59 59); [lia | lia | reflexivity].
Defined.

(** Hours are neither wrapped at a day nor cut to two digits. *)
Example fmt_dur_examples :
  _fmt_dur (-5) = "00:00:00" /\ _fmt_dur 3725 = "01:02:05" /\
  _fmt_dur 90000 = "25:00:00" /\ _fmt_dur 360000 = "100:00:00".
Proof. vm_compute. repeat split; reflexivity. Qed.

(** ** The selection of the controller *)

Module SelectionFacts.
Import TaskTUI TaskTUIKeys.

Lemma py_index_in_range {A} (l : list A) (i : Z) :
  (0 <= i < Z.of_nat (length l))%Z -> exists x, py_index l i = Some x.
Proof.
  intros Hi. unfold py_index.
  destruct (0 <=? i)%Z eqn:E; [|lia].
  destruct (lookup_lt_is_Some_2 l (Z.to_nat i)) as [x Hx]; [lia|]. eauto.
Qed.

Lemma py_index_past_end {A} (l : list A) (i : Z) :
  (Z.of_nat (length l) <= i)%Z -> py_index l i = None.
Proof.
  intros Hi. unfold py_index.
  destruct (0 <=? i)%Z eqn:E; [|lia].
  apply lookup_ge_None. lia.
Qed.

Section Facts.
Context {B : Type} `{Backend B}.

(** [_current_task] on the focused pane. *)
Lemma current_task_focused (ui : t B) :
  _current_task ui =
  match focused_view ui with
  | [] => inr (if focus_done ui then "done" else "open", None)
  | items =>
      match py_index items (focused_idx ui) with
      | Some x => inr (if focus_done ui then "done" else "open", Some x)
      | None => inl IndexError
      end
  end.
Proof.
  unfold _current_task, focused_view, focused_idx.
  destruct (focus_done ui); reflexivity.
Qed.

Lemma current_task_in_range (ui : t B) :
  focused_view ui = [] \/
  (0 <= focused_idx ui < Z.of_nat (length (focused_view ui)))%Z ->
  exists r, _current_task ui = inr r.
Proof.
  rewrite current_task_focused. intros [Hempty | Hin].
  - rewrite Hempty. eauto.
  - destruct (focused_view ui) as [|y items] eqn:E; [eauto|].
    destruct (py_index_in_range (y :: items) (focused_idx ui) Hin) as [x ->]. eauto.
Qed.

Lemma move_focused (delta : Z) (ui : t B) :
  _move delta ui =
  match focused_view ui with
  | [] => ui
  | items =>
      set_focused_idx
        (Z.max 0 (Z.min (focused_idx ui + delta) (Z.of_nat (length items) - 1))) ui
  end.
Proof.
  unfold _move, focused_view, focused_idx, set_focused_idx.
  destruct (focus_done ui).
  - destruct (_filtered_done ui); reflexivity.
  - destruct (_filtered_open ui); reflexivity.
Qed.

Lemma set_focused_idx_frame (i : Z) (ui : t B) :
  backend (set_focused_idx i ui) = backend ui /\
  filter_text (set_focused_idx i ui) = filter_text ui /\
  focus_done (set_focused_idx i ui) = focus_done ui /\
  focused_view (set_focused_idx i ui) = focused_view ui /\
  focused_idx (set_focused_idx i ui) = i /\
  (if focus_done ui
   then idx_open (set_focused_idx i ui) = idx_open ui
   else idx_done (set_focused_idx i ui) = idx_done ui).
Proof.
  destruct ui as [b fd io idn ft].
  unfold set_focused_idx, focused_view, focused_idx. cbn.
  destruct fd; cbn; repeat split; reflexivity.
Qed.

End Facts.
End SelectionFacts.

(** X25: after [_move], whatever the step and whatever the index was
    before (stale or out of range included), the selection of the focused
    pane lies inside its filtered view, so that [_current_task] does not
    raise; the backend, the filter, the focus and the index of the other
    pane are left as they were. *)
Theorem move_keeps_selection_in_view :
  forall B (contract : Backend B) (ui : TaskTUI.t B) (delta : Z),
    let ui' := TaskTUIKeys._move delta ui in
    TaskTUI.backend ui' = TaskTUI.backend ui /\
    TaskTUI.filter_text ui' = TaskTUI.filter_text ui /\
    TaskTUI.focus_done ui' = TaskTUI.focus_done ui /\
    (if TaskTUI.focus_done ui
     then TaskTUI.idx_open ui' = TaskTUI.idx_open ui
     else TaskTUI.idx_done ui' = TaskTUI.idx_done ui) /\
    (focused_view ui' = [] \/
     (0 <= focused_idx ui' < Z.of_nat (length (focused_view ui')))%Z) /\
    exists r, TaskTUIKeys._current_task ui' = inr r.
Proof.
  intros B contract ui delta. cbv zeta.
  rewrite SelectionFacts.move_focused.
  destruct (focused_view ui) as [|y items] eqn:E.
  - repeat split; try reflexivity.
    + destruct (TaskTUI.focus_done ui); reflexivity.
    + left. exact E.
    + apply SelectionFacts.current_task_in_range. left. exact E.
  - set (i := Z.max 0 (Z.min (focused_idx ui + delta) (Z.of_nat (length (y :: items)) - 1))).
    destruct (SelectionFacts.set_focused_idx_frame i ui)
      as (Hb & Hf & Hfd & Hv & Hi & Hother).
    assert (Hin : (0 <= focused_idx (set_focused_idx i ui)
                     < Z.of_nat (length (focused_view (set_focused_idx i ui))))%Z).
    { rewrite Hi, Hv, E. subst i. cbn [length]. lia. }
    split; [exact Hb|]. split; [exact Hf|]. split; [exact Hfd|]. split; [exact Hother|].
    split; [right; exact Hin|].
    apply SelectionFacts.current_task_in_range. right. exact Hin.
Qed.

Module HandlerFacts.
Import TaskTUI TaskTUIKeys.

Section Facts.
Context {B : Type} `{Backend B}.

(** A call on the backend leaves the selection, the focus and the filter. *)
Lemma on_backend_frame {A} (m : M B A) (ui : t B) :
  idx_open (on_backend m ui).2 = idx_open ui /\
  idx_done (on_backend m ui).2 = idx_done ui /\
  focus_done (on_backend m ui).2 = focus_done ui /\
  filter_text (on_backend m ui).2 = filter_text ui.
Proof.
  unfold on_backend. destruct (m (backend ui)) as [r b']. cbn. auto.
Qed.

Lemma key_x_frame (now : float) (ui : t B) :
  idx_open (key_x now ui).2 = idx_open ui /\ idx_done (key_x now ui).2 = idx_done ui.
Proof.
  unfold key_x.
  destruct (on_backend get_active_timer ui) as [[e|actives] ui'] eqn:E.
  - pose proof (on_backend_frame get_active_timer ui) as F. rewrite E in F.
    cbn in *. tauto.
  - pose proof (on_backend_frame get_active_timer ui) as F. rewrite E in F.
    cbn [snd] in F. destruct (actives.1.1).
    + pose proof (on_backend_frame (stop_timer now) ui') as F'.
      split; [rewrite (proj1 F') | rewrite (proj1 (proj2 F'))]; tauto.
    + cbn. tauto.
Qed.

Lemma key_s_frame (now : float) (ui : t B) :
  idx_open (key_s now ui).2 = idx_open ui /\ idx_done (key_s now ui).2 = idx_done ui.
Proof.
  unfold key_s. destruct (_current_task ui) as [e|[pane [x|]]]; cbn; auto.
  pose proof (on_backend_frame
                (try_except (switch_timer (Task.title x) now) (fun _ => ret tt)) ui) as F.
  tauto.
Qed.

Context `{Contract.Tasks B}.

Lemma key_space_frame (ui : t B) :
  idx_open (key_space ui).2 = idx_open ui /\ idx_done (key_space ui).2 = idx_done ui.
Proof.
  unfold key_space. destruct (_current_task ui) as [e|[pane [x|]]]; cbn; auto.
  pose proof (on_backend_frame (Contract.toggle (Task.id x)) ui) as F.
  destruct (on_backend (Contract.toggle (Task.id x)) ui) as [[e|r] ui']; cbn in *; tauto.
Qed.

End Facts.
End HandlerFacts.

(** X26: no key handler ever makes a selection index negative: when both
    indices are at least zero before an arrow key, space, "d", tab, "r",
    "x", "s" or a change of the search text, they are at least zero after
    it, whatever the backend does and whether or not the handler raises.
    So [items[idx]] never counts from the end of the list. *)
Theorem selection_never_negative :
  forall B (contract : Backend B) (tasks : Contract.Tasks B)
         (ev : TaskTUIKeys.event) (ui : TaskTUI.t B),
    selection_nonneg ui ->
    selection_nonneg (TaskTUIKeys.handle ev ui).2.
Proof.
  intros B contract tasks ev ui [Ho Hd]. unfold selection_nonneg.
  destruct ev as [| | | | | |now|now|text]; cbn [TaskTUIKeys.handle snd].
  - rewrite SelectionFacts.move_focused.
    destruct (focused_view ui); [auto|].
    unfold set_focused_idx, TaskTUIKeys.with_idx_done,
      TaskTUIKeys.with_idx_open.
    destruct (TaskTUI.focus_done ui); cbn; lia.
  - rewrite SelectionFacts.move_focused.
    destruct (focused_view ui); [auto|].
    unfold set_focused_idx, TaskTUIKeys.with_idx_done,
      TaskTUIKeys.with_idx_open.
    destruct (TaskTUI.focus_done ui); cbn; lia.
  - destruct (HandlerFacts.key_space_frame ui) as [-> ->]. auto.
  - unfold TaskTUIKeys.key_d.
    destruct (TaskTUIKeys._current_task ui) as [e|[pane [x|]]]; cbn; auto.
    pose proof (HandlerFacts.on_backend_frame (Contract.delete (Task.id x)) ui)
      as (Fo & Fd & _).
    destruct (TaskTUIKeys.on_backend (Contract.delete (Task.id x)) ui) as [[e|r] ui'];
      cbn in *.
    + rewrite Fo, Fd. auto.
    + unfold TaskTUIKeys.with_idx_done, TaskTUIKeys.with_idx_open.
      destruct (TaskTUI.focus_done ui'); cbn; lia.
  - cbn. auto.
  - unfold TaskTUIKeys.key_r.
    pose proof (HandlerFacts.on_backend_frame Contract.refresh ui) as (Fo & Fd & _).
    rewrite Fo, Fd. auto.
  - destruct (HandlerFacts.key_x_frame now ui) as [-> ->]. auto.
  - destruct (HandlerFacts.key_s_frame now ui) as [-> ->]. auto.
  - cbn. lia.
Qed.

Lemma selection_never_negative_witness :
  let ui := TaskTUI.mk (LocalJsonBackend.with_cache [Task.mk "1" "Buy milk" false None]
                          local_idle) false 0 0 "" in
  selection_nonneg ui /\ selection_nonneg (TaskTUIKeys.handle TaskTUIKeys.KeyD ui).2.
Proof.
  cbv zeta.
  assert (Hn : selection_nonneg
                 (TaskTUI.mk (LocalJsonBackend.with_cache
                                [Task.mk "1" "Buy milk" false None] local_idle)
                    false 0 0 "")) by (split; cbn; lia).
  split; [exact Hn|].
  exact (selection_never_negative _ _ _ TaskTUIKeys.KeyD _ Hn).
Defined.

(** X27: with an index that is not negative, [_current_task] raises
    [IndexError] exactly when the focused pane shows at least one task and
    its index is at or past the end of what is shown. (Down and then space
    on a store of two open tasks reach such a state, see the witness.) *)
Theorem current_task_raises_past_the_end :
  forall B (contract : Backend B) (ui : TaskTUI.t B),
    (0 <= focused_idx ui)%Z ->
    (TaskTUIKeys._current_task ui = inl IndexError <->
     focused_view ui <> [] /\ (Z.of_nat (length (focused_view ui)) <= focused_idx ui)%Z).
Proof.
  intros B contract ui Hi.
  rewrite SelectionFacts.current_task_focused.
  destruct (focused_view ui) as [|y items] eqn:E.
  - split; [discriminate | intros [Hne _]; congruence].
  - destruct (Z_lt_le_dec (focused_idx ui) (Z.of_nat (length (y :: items)))) as [Hlt|Hge].
    + destruct (SelectionFacts.py_index_in_range (y :: items) (focused_idx ui)) as [x ->];
        [lia|].
      split; [discriminate | intros [_ Hle]; lia].
    + rewrite (SelectionFacts.py_index_past_end (y :: items) (focused_idx ui) Hge).
      split; [intros _; split; [discriminate | exact Hge] | reflexivity].
Qed.

Lemma current_task_raises_past_the_end_witness :
  let a := Task.mk "1" "Buy milk" false None in
  let b := Task.mk "2" "Write report" false None in
  let ui0 := TaskTUI.mk (LocalJsonBackend.with_cache [a; b] local_idle) false 0 0 "" in
  let ui1 := (TaskTUIKeys.handle TaskTUIKeys.KeyDown ui0).2 in
  let ui2 := (TaskTUIKeys.handle TaskTUIKeys.KeySpace ui1).2 in
  (0 <= focused_idx ui2)%Z /\
  TaskTUIKeys.handle TaskTUIKeys.KeySpace ui2 = (inl IndexError, ui2) /\
  (TaskTUIKeys._current_task ui2 = inl IndexError <->
   focused_view ui2 <> [] /\ (Z.of_nat (length (focused_view ui2)) <= focused_idx ui2)%Z).
Proof.
  cbv zeta.
  split; [vm_compute; discriminate|].
  split; [vm_compute; reflexivity|].
  apply current_task_raises_past_the_end. vm_compute. discriminate.
Defined.

Module SwitchFacts.
Import TaskTUI TaskTUIKeys.

Lemma with_backend_same {B} (ui : t B) : with_backend (backend ui) ui = ui.
Proof. destruct ui; reflexivity. Qed.

(** "s" on a task whose title already has the active timer, on a backend
    whose [get_active_timer] only reads. *)
Lemma key_s_same_title {B} `{Backend B} (ui : t B) (now : float)
    (pane : string) (x : Task.t) (s : snapshot) :
  _current_task ui = inr (pane, Some x) ->
  get_active_timer (backend ui) = (inr s, backend ui) ->
  s.1.1 = true -> s.1.2 = Task.title x ->
  key_s now ui = (inr tt, ui).
Proof.
  intros Hct Hget Ha Ht. unfold key_s. rewrite Hct.
  unfold on_backend, switch_timer. unfold_monad. rewrite Hget.
  rewrite Ha, Ht, bool_decide_eq_true_2 by reflexivity. cbn.
  rewrite with_backend_same. reflexivity.
Qed.

End SwitchFacts.

(** X28: pressing "s" on a task whose title already has the active timer
    changes nothing on either backend: no timer state is written, nothing
    is recorded, and the start time of the running timer is kept (the
    handler does not go through [start_timer], which would overwrite
    it). *)
Theorem key_s_on_running_task_is_a_no_op :
  (forall (ui : TaskTUI.t LocalJsonBackend.t) (now t1 : float) (pane : string) (x : Task.t),
      TaskTUIKeys._current_task ui = inr (pane, Some x) ->
      LocalJsonBackend.fields (TaskTUI.backend ui) = (true, Task.title x, t1) ->
      TaskTUIKeys.key_s now ui = (inr tt, ui)) /\
  (forall R (api : GoogleApi R) (ui : TaskTUI.t (GoogleBackend.t R)) (now t1 : float)
          (pane : string) (x : Task.t),
      TaskTUIKeys._current_task ui = inr (pane, Some x) ->
      GoogleBackend.fields (TaskTUI.backend ui) = (true, Task.title x, t1) ->
      TaskTUIKeys.key_s now ui = (inr tt, ui)).
Proof.
  split.
  - intros ui now t1 pane x Hct Hf.
    apply (SwitchFacts.key_s_same_title ui now pane x (true, Task.title x, t1) Hct);
      [|reflexivity|reflexivity].
    cbn. unfold LocalJsonBackend.get_active_timer, gets. rewrite Hf. reflexivity.
  - intros R api ui now t1 pane x Hct Hf.
    apply (SwitchFacts.key_s_same_title ui now pane x (true, Task.title x, t1) Hct);
      [|reflexivity|reflexivity].
    cbn. unfold GoogleBackend.get_active_timer, gets. rewrite Hf. reflexivity.
Qed.

Lemma key_s_on_running_task_is_a_no_op_witness :
  let a := Task.mk "1" "A" false None in
  let ui := TaskTUI.mk (LocalJsonBackend.with_cache [a] local_running_A) false 0 0 "" in
  let gui := TaskTUI.mk (GoogleBackend.with_cache [a] (google_running_A fake_online))
               false 0 0 "" in
  TaskTUIKeys._current_task ui = inr ("open", Some a) /\
  LocalJsonBackend.fields (TaskTUI.backend ui) = (true, Task.title a, 100%float) /\
  TaskTUIKeys.key_s 160%float ui = (inr tt, ui) /\
  TaskTUIKeys._current_task gui = inr ("open", Some a) /\
  GoogleBackend.fields (TaskTUI.backend gui) = (true, Task.title a, 100%float) /\
  TaskTUIKeys.key_s 160%float gui = (inr tt, gui).
Proof.
  cbv zeta.
  split; [reflexivity|]. split; [reflexivity|]. split.
  - apply (proj1 key_s_on_running_task_is_a_no_op
             (TaskTUI.mk (LocalJsonBackend.with_cache [Task.mk "1" "A" false None]
                            local_running_A) false 0 0 "")
             160%float 100%float "open" (Task.mk "1" "A" false None)); reflexivity.
  - split; [reflexivity|]. split; [reflexivity|].
    apply (proj2 key_s_on_running_task_is_a_no_op FakeGoogle FakeGoogle_Api
             (TaskTUI.mk (GoogleBackend.with_cache [Task.mk "1" "A" false None]
                            (google_running_A fake_online)) false 0 0 "")
             160%float 100%float "open" (Task.mk "1" "A" false None)); reflexivity.
Defined.

(** X29: pressing "s" on a task while the timer of a different title is
    active, on the remote backend, returns normally with the timer on the
    selected title started at the time of the key press, and the Google
    side is left as one recording attempt for the previous title leaves
    it, from its stored start to the time of the key press (no attempt
    when that start is not above zero): through the controller the switch
    does close the previous interval. *)
Theorem key_s_switch_records_previous_interval :
  forall R (api : GoogleApi R) (ui : TaskTUI.t (GoogleBackend.t R)) (now t1 : float)
         (pane : string) (x : Task.t) (A : string),
    TaskTUIKeys._current_task ui = inr (pane, Some x) ->
    GoogleBackend.fields (TaskTUI.backend ui) = (true, A, t1) ->
    A <> Task.title x ->
    exists ui',
      TaskTUIKeys.key_s now ui = (inr tt, ui') /\
      GoogleBackend.fields (TaskTUI.backend ui') = (true, Task.title x, now) /\
      GoogleBackend.remote (TaskTUI.backend ui') =
        (if (0 <? t1)%float
         then (_write_time_slot t1 now (slot_summary A) "Logged via taskanov"
                 (GoogleBackend._calendar_name (TaskTUI.backend ui))
                 (GoogleBackend.remote (TaskTUI.backend ui))).2
         else GoogleBackend.remote (TaskTUI.backend ui)).
Proof.
  intros R api ui now t1 pane x A Hct Hf Hne.
  unfold TaskTUIKeys.key_s. rewrite Hct.
  unfold TaskTUIKeys.on_backend, TaskTUIKeys.switch_timer.
  set (w := TaskTUI.backend ui) in *.
  assert (Hfields : GoogleBackend._timer_active w = true /\
                    GoogleBackend._timer_title w = A /\ GoogleBackend._timer_started w = t1).
  { unfold GoogleBackend.fields in Hf. injection Hf as -> -> ->. auto. }
  destruct Hfields as (Ha & Hti & Hst).
  destruct (GoogleTimerFacts.google_stop_timer_returns w now) as (w1 & new & E1 & F1 & _).
  pose proof (GoogleStopFacts.stop_timer_remote w now) as Hr1.
  rewrite E1 in Hr1. cbn [snd] in Hr1. rewrite Ha, Hti, Hst in Hr1. cbn [andb] in Hr1.
  destruct (GoogleTimerFacts.google_start_timer_returns w1 (Task.title x) now)
    as (w2 & E2 & F2 & _ & R2).
  exists (TaskTUIKeys.with_backend w2 ui).
  unfold_monad. cbn [get_active_timer stop_timer start_timer GoogleBackend_Backend].
  unfold GoogleBackend.get_active_timer, gets. rewrite Hf. cbn [fst snd].
  rewrite bool_decide_eq_false_2 by exact Hne. cbn [negb andb orb].
  rewrite E1, E2. split; [reflexivity|].
  cbn [TaskTUI.backend TaskTUIKeys.with_backend].
  split; [exact F2|]. rewrite R2. exact Hr1.
Qed.

Lemma key_s_switch_records_previous_interval_witness :
  let b := Task.mk "2" "B" false None in
  let gui := TaskTUI.mk (GoogleBackend.with_cache [b] (google_running_A fake_online))
               false 0 0 "" in
  TaskTUIKeys._current_task gui = inr ("open", Some b) /\
  GoogleBackend.fields (TaskTUI.backend gui) = (true, "A", 100%float) /\
  fg_events (GoogleBackend.remote (TaskTUI.backend (TaskTUIKeys.key_s 160%float gui).2)) =
    [("taskanov", mkEvent "A" "Logged via taskanov" "" "")] /\
  exists ui',
    TaskTUIKeys.key_s 160%float gui = (inr tt, ui') /\
    GoogleBackend.fields (TaskTUI.backend ui') = (true, Task.title b, 160%float) /\
    GoogleBackend.remote (TaskTUI.backend ui') =
      (if (0 <? 100)%float
       then (_write_time_slot 100%float 160%float (slot_summary "A") "Logged via taskanov"
               (GoogleBackend._calendar_name (TaskTUI.backend gui))
               (GoogleBackend.remote (TaskTUI.backend gui))).2
       else GoogleBackend.remote (TaskTUI.backend gui)).
Proof.
  cbv zeta.
  split; [reflexivity|]. split; [reflexivity|]. split; [vm_compute; reflexivity|].
  apply (key_s_switch_records_previous_interval FakeGoogle FakeGoogle_Api
           (TaskTUI.mk (GoogleBackend.with_cache [Task.mk "2" "B" false None]
                          (google_running_A fake_online)) false 0 0 "")
           160%float 100%float "open" (Task.mk "2" "B" false None) "A").
  - reflexivity.
  - reflexivity.
  - cbn. discriminate.
Defined.

Module DeleteKeyFacts.
Import TaskTUI TaskTUIKeys.

Lemma filter_filter {A} (p q : A -> bool) (l : list A) :
  List.filter q (List.filter p l) = List.filter (fun x => p x && q x) l.
Proof.
  induction l as [|x l IH]; cbn; [reflexivity|].
  destruct (p x); cbn; [destruct (q x)|]; rewrite IH; reflexivity.
Qed.

Lemma filter_all {A} (p : A -> bool) (l : list A) :
  List.filter p l = List.filter (fun x => p x && true) l.
Proof. apply List.filter_ext. intros x. rewrite andb_true_r. reflexivity. Qed.

Lemma focused_view_local (ui : t LocalJsonBackend.t) :
  focused_view ui =
  List.filter (shown (focus_done ui) (filter_text ui)) (LocalJsonBackend._cache (backend ui)).
Proof.
  destruct ui as [b fd io idn ft].
  unfold focused_view, _filtered_done, _filtered_open, shown. cbn.
  unfold LocalJsonBackend.list_done, LocalJsonBackend.list_open.
  destruct fd; cbn; case_bool_decide; cbn.
  - apply filter_all.
  - apply filter_filter.
  - apply filter_all.
  - apply filter_filter.
Qed.

Lemma filter_drop_one {A} (p : A -> bool) (pre post : list A) (y : A) :
  length (List.filter p (pre ++ y :: post)) <= S (length (List.filter p (pre ++ post))).
Proof.
  rewrite !List.filter_app, !length_app. cbn. destruct (p y); cbn; lia.
Qed.

Lemma after_delete_fields (b' : LocalJsonBackend.t) (ui : t LocalJsonBackend.t) :
  backend (after_delete b' ui) = b' /\
  focus_done (after_delete b' ui) = focus_done ui /\
  filter_text (after_delete b' ui) = filter_text ui /\
  focused_idx (after_delete b' ui) = Z.max 0 (focused_idx ui - 1) /\
  (if focus_done ui
   then idx_open (after_delete b' ui) = idx_open ui
   else idx_done (after_delete b' ui) = idx_done ui).
Proof.
  destruct ui as [b fd io idn ft]. unfold after_delete, focused_idx.
  destruct fd; cbn; repeat split; reflexivity.
Qed.

End DeleteKeyFacts.

(** X30: on the local backend, "d" pressed with the selection inside the
    focused view and a write that succeeds removes one task from the
    cache, moves the selection of the focused pane one up (not below
    zero), leaves the other selection, and the selection is again inside
    the focused view or that view is empty, so that the next
    [_current_task] does not raise. *)
Theorem local_key_d_keeps_selection_valid :
  forall (ui : TaskTUI.t LocalJsonBackend.t),
    (0 <= focused_idx ui < Z.of_nat (length (focused_view ui)))%Z ->
    next_write_fails (LocalJsonBackend.disk (TaskTUI.backend ui)) = false ->
    exists ui',
      TaskTUIKeys.key_d ui = (inr tt, ui') /\
      S (length (LocalJsonBackend._cache (TaskTUI.backend ui'))) =
        length (LocalJsonBackend._cache (TaskTUI.backend ui)) /\
      focused_idx ui' = Z.max 0 (focused_idx ui - 1) /\
      (if TaskTUI.focus_done ui
       then TaskTUI.idx_open ui' = TaskTUI.idx_open ui
       else TaskTUI.idx_done ui' = TaskTUI.idx_done ui) /\
      (focused_view ui' = [] \/
       (0 <= focused_idx ui' < Z.of_nat (length (focused_view ui')))%Z).
Proof.
  intros ui Hin Hw.
  pose proof (SelectionFacts.current_task_focused ui) as Hct.
  destruct (focused_view ui) as [|y0 items] eqn:Ev; [cbn in Hin; lia|].
  destruct (SelectionFacts.py_index_in_range (y0 :: items) (focused_idx ui) Hin) as [x Hx].
  rewrite Hx in Hct.
  assert (Hxc : In x (LocalJsonBackend._cache (TaskTUI.backend ui))).
  { assert (Hxv : In x (focused_view ui)).
    { rewrite Ev. unfold py_index in Hx.
      rewrite (proj2 (Z.leb_le 0 (focused_idx ui))) in Hx by lia.
      apply list_elem_of_In. eapply list_elem_of_lookup_2. exact Hx. }
    rewrite DeleteKeyFacts.focused_view_local in Hxv.
    apply List.filter_In in Hxv. tauto. }
  destruct (LocalTaskFacts.first_with_id (Task.id x) (LocalJsonBackend._cache (TaskTUI.backend ui)))
    as [Habs | (pre & y & post & Hc & Hpre & Hy)].
  { exfalso. rewrite Forall_forall in Habs.
    apply (Habs x); [apply list_elem_of_In; exact Hxc | reflexivity]. }
  assert (Hlen : (length (y0 :: items) <=
                  S (length (List.filter
                     (shown (TaskTUI.focus_done ui) (TaskTUI.filter_text ui))
                     (pre ++ post))))%nat).
  { rewrite <- Ev, DeleteKeyFacts.focused_view_local, Hc.
    apply DeleteKeyFacts.filter_drop_one. }
  unfold TaskTUIKeys.key_d. rewrite Hct.
  unfold TaskTUIKeys.on_backend.
  cbn [Contract.delete LocalJsonBackend_Tasks].
  rewrite LocalTaskFacts.delete_run, Hc.
  rewrite (LocalTaskFacts.delete_loop_first (Task.id x) pre post y Hpre Hy).
  unfold write_result, after_write. rewrite Hw.
  cbn [fst snd].
  match goal with
  | |- context [TaskTUIKeys.with_backend ?b ui] =>
      set (b' := b); fold (after_delete b' ui)
  end.
  destruct (DeleteKeyFacts.after_delete_fields b' ui) as (Hb & Hfd & Hft & Hidx & Hother).
  exists (after_delete b' ui).
  split; [reflexivity|].
  split; [rewrite Hb; subst b'; cbn; rewrite !length_app; cbn; lia|].
  split; [exact Hidx|]. split; [exact Hother|].
  rewrite DeleteKeyFacts.focused_view_local, Hb, Hfd, Hft, Hidx.
  assert (Hcache : LocalJsonBackend._cache b' = pre ++ post) by (subst b'; reflexivity).
  rewrite Hcache.
  destruct (List.filter (shown (TaskTUI.focus_done ui) (TaskTUI.filter_text ui))
              (pre ++ post)) as [|z l] eqn:E; [left; reflexivity | right].
  cbn [length] in *. lia.
Qed.

Lemma local_key_d_keeps_selection_valid_witness :
  let a := Task.mk "1" "Buy milk" false None in
  let b := Task.mk "2" "Write report" false None in
  let ui := TaskTUI.mk (LocalJsonBackend.with_cache [a; b] local_idle) false 1 0 "" in
  (0 <= focused_idx ui < Z.of_nat (length (focused_view ui)))%Z /\
  exists ui',
    TaskTUIKeys.key_d ui = (inr tt, ui') /\
    S (length (LocalJsonBackend._cache (TaskTUI.backend ui'))) =
      length (LocalJsonBackend._cache (TaskTUI.backend ui)) /\
    focused_idx ui' = Z.max 0 (focused_idx ui - 1) /\
    (if TaskTUI.focus_done ui
     then TaskTUI.idx_open ui' = TaskTUI.idx_open ui
     else TaskTUI.idx_done ui' = TaskTUI.idx_done ui) /\
    (focused_view ui' = [] \/
     (0 <= focused_idx ui' < Z.of_nat (length (focused_view ui')))%Z).
Proof.
  cbv zeta.
  assert (Hin : (0 <= focused_idx
                   (TaskTUI.mk (LocalJsonBackend.with_cache
                      [Task.mk "1" "Buy milk" false None;
                       Task.mk "2" "Write report" false None] local_idle) false 1 0 "")
                 < Z.of_nat (length (focused_view
                   (TaskTUI.mk (LocalJsonBackend.with_cache
                      [Task.mk "1" "Buy milk" false None;
                       Task.mk "2" "Write report" false None] local_idle) false 1 0 ""))))%Z)
    by (vm_compute; split; [discriminate | reflexivity]).
  split; [exact Hin|].
  apply (local_key_d_keeps_selection_valid _ Hin). reflexivity.
Defined.
